(** * hf-model-to-gguf: the orchestration script [main.py]

    A shallow embedding of the command-line script that resolves a model
    alias, fetches the model's configuration from the hub, downloads the
    weights, synchronises the llama.cpp checkout, converts the weights to
    GGUF and optionally runs the converted model.

    Conventions of the embedding.
    - Python [str] values are [string]s, read as UTF-8 byte sequences.
      Substring search and splitting on ["/"] coincide on bytes and on code
      points. [str.upper] follows the case tables of the interpreter, which
      are no part of the script: it is an operation of the platform, known
      only on ASCII text.
    - Every call that reaches outside the interpreter (the hub, the
      filesystem, child processes, the environment) is a field of a
      [Platform]; the script is a function of the platform, the parsed
      arguments and the initial world.
    - A computation returns its outcome (a value or a raised exception), the
      final world and the list of outside calls it made, in order.
    - Writes to standard output are not part of the model: no [print] of the
      script can change its control flow. *)

From stdpp Require Import gmap strings list.
From Stdlib Require Import Ascii ZArith.

Local Open Scope string_scope.
Local Open Scope list_scope.

(** ** Python strings *)

Module Str.

(** [sub in s] *)
Fixpoint contains (sub s : string) : bool :=
  String.prefix sub s ||
  match s with
  | EmptyString => false
  | String _ t => contains sub t
  end.

(** [s.startswith(p)] *)
Definition startswith (p s : string) : bool := String.prefix p s.

(** [s.endswith(suf)]: [suf] is one of the tails of [s]. *)
Fixpoint endswith (suf s : string) : bool :=
  String.eqb suf s ||
  match s with
  | EmptyString => false
  | String _ t => endswith suf t
  end.

(** [s.endswith((suf1, suf2, ...))] *)
Definition endswith_any (sufs : list string) (s : string) : bool :=
  existsb (fun suf => endswith suf s) sufs.

(** [s.split(sep)] for a separator of one character. The result is never
    empty: a string without separator is its own single segment. *)
Fixpoint split (sep : ascii) (s : string) : list string :=
  match s with
  | EmptyString => [EmptyString]
  | String c t =>
      if Ascii.eqb c sep then EmptyString :: split sep t
      else match split sep t with
           | seg :: segs => String c seg :: segs
           | [] => [String c EmptyString]
           end
  end.

(** [sep.join(segs)] for a separator of one character. *)
Fixpoint join (sep : ascii) (segs : list string) : string :=
  match segs with
  | [] => EmptyString
  | seg :: rest =>
      match rest with
      | [] => seg
      | _ :: _ => seg +:+ String sep (join sep rest)
      end
  end.

(** Text made of ASCII characters only. *)
Fixpoint is_ascii (s : string) : bool :=
  match s with
  | EmptyString => true
  | String c t => (nat_of_ascii c <? 128)%nat && is_ascii t
  end.

Definition is_lower (c : ascii) : bool :=
  let n := nat_of_ascii c in (97 <=? n)%nat && (n <=? 122)%nat.

Definition upper_char (c : ascii) : ascii :=
  if is_lower c then ascii_of_nat (nat_of_ascii c - 32) else c.

(** [s.upper()] on ASCII text: the letters a to z move to A to Z, every
    other character stays. *)
Fixpoint ascii_upper (s : string) : string :=
  match s with
  | EmptyString => EmptyString
  | String c t => String (upper_char c) (ascii_upper t)
  end.

(** [string.ascii_lowercase] *)
Definition ascii_lowercase : string := "abcdefghijklmnopqrstuvwxyz".

(** [c in alphabet] for a character [c]. *)
Fixpoint occurs (c : ascii) (alphabet : string) : bool :=
  match alphabet with
  | EmptyString => false
  | String a rest => Ascii.eqb a c || occurs c rest
  end.

(** Some character of [s] is one of the letters of [ascii_lowercase]. *)
Fixpoint has_lower (s : string) : bool :=
  match s with
  | EmptyString => false
  | String c t => occurs c ascii_lowercase || has_lower t
  end.

End Str.

(** [os.path.join(a, b)] of [posixpath]. *)
Definition os_path_join (a b : string) : string :=
  if Str.startswith "/" b then b
  else if String.eqb a "" || Str.endswith "/" a then a +:+ b
  else a +:+ "/" +:+ b.

(** ** Python values found in a model configuration *)

#[warnings="-register-all"] Inductive pyval :=
| PyNone
| PyBool (b : bool)
| PyInt (z : Z)
| PyStr (s : string)
| PyList (l : list pyval)
| PyDict (d : gmap string pyval).

(** Truth value of an object, as tested by [not x]. *)
Definition truthy (v : pyval) : bool :=
  match v with
  | PyNone => false
  | PyBool b => b
  | PyInt z => negb (z =? 0)%Z
  | PyStr s => negb (String.eqb s "")
  | PyList l => match l with [] => false | _ => true end
  | PyDict d => negb (bool_decide (d = ∅))
  end.

(** The attributes of the configuration object that the script reads;
    [None] stands for an attribute the object does not have. *)
Record Config := {
  quantization_config : option pyval;
  model_type : option pyval
}.

(** [getattr(obj, name, dflt)] on an attribute read as an [option]. *)
Definition getattr (attr : option pyval) (dflt : pyval) : pyval :=
  default dflt attr.

(** ** Exceptions and outcomes *)

Inductive exn :=
| ValueError
| AttributeError
| FileNotFoundError
| CalledProcessError
| OSError
| OtherException
| KeyboardInterrupt
| SystemExit.

(** [isinstance(e, Exception)]: [KeyboardInterrupt] and [SystemExit] derive
    from [BaseException] only. *)
Definition is_Exception (e : exn) : bool :=
  match e with
  | KeyboardInterrupt | SystemExit => false
  | _ => true
  end.

Inductive outcome (A : Type) :=
| Done (a : A)
| Raised (e : exn).
Arguments Done {A} a.
Arguments Raised {A} e.

(** ** Command-line arguments, as returned by [parse_args] *)

Module Args.
Record t := {
  model : string;
  skip_download : bool;
  skip_conversion : bool;
  run_model : bool;
  verbose : bool
}.
End Args.

(** ** The static tables *)

Definition MODELS_ALIASES : gmap string string :=
  <["mlx-deepseek-32b" := "mlx-community/DeepSeek-R1-Distill-Qwen-32B"]>
  (<["llama-3b" := "mlx-community/Llama-3.2-3B-Instruct"]> ∅).

(** The table of [run_model]. A Python dict iterates in insertion order,
    which the search below depends on, so the table is an association
    list. *)
Definition n_gpu_layers_mapping : list (string * string) :=
  [ ("72B", "40"); ("32B", "60"); ("14B", "70"); ("12B", "70");
    ("7B", "80"); ("3B", "90"); ("1B", "100") ].

(** [d.get(k, dflt)] on an association list with distinct keys. *)
Fixpoint assoc_get (d : list (string * string)) (k : string) (dflt : string) : string :=
  match d with
  | [] => dflt
  | (k', v) :: rest => if String.eqb k' k then v else assoc_get rest k dflt
  end.

(** [next((size for size in n_gpu_layers_mapping if size in MODEL_NAME), None)] *)
Definition model_size (MODEL_NAME : string) : option string :=
  List.find (fun size => Str.contains size MODEL_NAME)
            (map fst n_gpu_layers_mapping).

(** [n_gpu_layers_mapping.get(model_size, "30")]; [None] is not a key. *)
Definition n_gpu_layers (MODEL_NAME : string) : string :=
  match model_size MODEL_NAME with
  | Some size => assoc_get n_gpu_layers_mapping size "30"
  | None => "30"
  end.

(** ** The outside world *)

(** One entry per call that leaves the interpreter. *)
Inductive event :=
| PutEnv (name value : string)        (* os.environ[name] = value *)
| MakeDirs (path : string)            (* os.makedirs(path, exist_ok=True) *)
| FromPretrained (name : string)      (* AutoConfig.from_pretrained(name) *)
| PathExists (path : string)          (* os.path.exists(path) *)
| ListDir (path : string)             (* os.listdir(path) *)
| Spawn (argv : list string).         (* subprocess.run(argv, check=True) *)

(** What the script is run on. [World] is the state of everything outside
    the interpreter; each operation may read and change it. [spawn] returns
    the exit status of the child, or raises when the child cannot be
    started. [str_upper] is the interpreter's [str.upper]; on ASCII text it
    is [Str.ascii_upper], on other text it is whatever the case tables of
    the interpreter make it. *)
Record Platform := {
  World : Type;
  script_dir : string;   (* os.path.dirname(os.path.realpath(__file__)) *)
  str_upper : string -> string;   (* s.upper() *)
  str_upper_ascii :
    forall s, Str.is_ascii s = true -> str_upper s = Str.ascii_upper s;
  putenv : string -> string -> World -> World;
  makedirs : string -> World -> outcome unit * World;
  from_pretrained : string -> World -> outcome Config * World;
  path_exists : string -> World -> bool;
  listdir : string -> World -> outcome (list string) * World;
  spawn : list string -> World -> outcome Z * World
}.

(** ** Computations: outcome, final world and trace of outside calls *)

Section Computations.

Variable P : Platform.

Definition M (A : Type) : Type :=
  World P -> outcome A * World P * list event.

Definition ret {A} (a : A) : M A :=
  fun w => (Done a, w, []).

Definition raise {A} (e : exn) : M A :=
  fun w => (Raised e, w, []).

(** Sequencing: an exception of [m] skips [k]. *)
Definition bind {A B} (m : M A) (k : A -> M B) : M B :=
  fun w =>
    match m w with
    | (Done a, w1, t1) =>
        match k a w1 with
        | (r, w2, t2) => (r, w2, t1 ++ t2)
        end
    | (Raised e, w1, t1) => (Raised e, w1, t1)
    end.

(** [try: m  except Exception: h]. The handler runs for the subclasses of
    [Exception]; any other exception passes through. *)
Definition try_except {A} (m : M A) (h : exn -> M A) : M A :=
  fun w =>
    match m w with
    | (Done a, w1, t1) => (Done a, w1, t1)
    | (Raised e, w1, t1) =>
        if is_Exception e then
          match h e w1 with
          | (r, w2, t2) => (r, w2, t1 ++ t2)
          end
        else (Raised e, w1, t1)
    end.

(** Lifting a result computed without touching the world. *)
Definition lift {A} (r : outcome A) : M A :=
  fun w => (r, w, []).

Definition os_environ_set (name value : string) : M unit :=
  fun w => (Done tt, putenv P name value w, [PutEnv name value]).

Definition os_makedirs (path : string) : M unit :=
  fun w => let (r, w') := makedirs P path w in (r, w', [MakeDirs path]).

Definition AutoConfig_from_pretrained (name : string) : M Config :=
  fun w => let (r, w') := from_pretrained P name w in (r, w', [FromPretrained name]).

Definition os_path_exists (path : string) : M bool :=
  fun w => (Done (path_exists P path w), w, [PathExists path]).

Definition os_listdir (path : string) : M (list string) :=
  fun w => let (r, w') := listdir P path w in (r, w', [ListDir path]).

(** [subprocess.run(argv, check=True)]: a non-zero exit status raises
    [CalledProcessError]. *)
Definition subprocess_run (argv : list string) : M unit :=
  fun w =>
    let (r, w') := spawn P argv w in
    (match r with
     | Done status => if (status =? 0)%Z then Done tt else Raised CalledProcessError
     | Raised e => Raised e
     end, w', [Spawn argv]).

End Computations.

Arguments ret {P A} a.
Arguments raise {P A} e.
Arguments bind {P A B} m k.
Arguments try_except {P A} m h.
Arguments lift {P A} r.

Notation "'let*' x ':=' m 'in' k" := (bind m (fun x => k))
  (at level 10, x pattern, m at level 100, k at level 200).

(** Unfolds the operations of [M] down to functions of the world. *)
Ltac unfold_M :=
  unfold bind, ret, raise, lift, try_except, os_environ_set, os_makedirs,
    AutoConfig_from_pretrained, os_path_exists, os_listdir, subprocess_run in *.

(** The three components of a run. *)
Definition result {W A} (r : outcome A * W * list event) : outcome A := fst (fst r).
Definition world {W A} (r : outcome A * W * list event) : W := snd (fst r).
Definition trace {W A} (r : outcome A * W * list event) : list event := snd r.

(** ** The script *)

(** [obj.get(key, dflt)]: only a dict has the method. *)
Definition py_get (obj : pyval) (key : string) (dflt : pyval) : outcome pyval :=
  match obj with
  | PyDict d => Done (default dflt (d !! key))
  | _ => Raised AttributeError
  end.

(** The module-level names whose value depends on the fetched metadata.
    [QUANTIZATION_TYPE] is kept as the [str] it has to be for the module to
    finish loading. *)
Record Globals := {
  MODEL_TYPE : pyval;
  QUANTIZATION_TYPE : string;
  GGUF_PATH : string
}.

Section Script.

Variable P : Platform.
Variable args : Args.t.

(** [MODELS_ALIASES.get(args.model, args.model)] *)
Definition MODEL_NAME : string :=
  default (Args.model args) (MODELS_ALIASES !! Args.model args).

Definition SCRIPT_DIR : string := script_dir P.
Definition DOWNLOAD_DIR : string := os_path_join SCRIPT_DIR "models".
(** [MODEL_NAME.split("/")[-1]] *)
Definition MODEL_SHORTNAME : string := List.last (Str.split "/" MODEL_NAME) "".
Definition SAVE_DIR : string := os_path_join DOWNLOAD_DIR MODEL_SHORTNAME.
Definition LLAMA_CPP_DIR : string := os_path_join SCRIPT_DIR "llama.cpp".

(** Returns the pair [(model_type, quantization)]. *)
Definition fetch_model_metadata : M P (pyval * pyval) :=
  try_except
    (let* config := AutoConfig_from_pretrained P MODEL_NAME in
     let* quantization :=
       lift (py_get (getattr (quantization_config config) (PyDict ∅))
                    "quant_method" (PyStr "f16")) in
     let model_type := getattr (model_type config) (PyStr "unknown") in
     ret (model_type, quantization))
    (fun _ => ret (PyNone, PyNone)).

(** The statements of the module body, from the environment variable to
    the binding of [GGUF_PATH]. *)
Definition module_level : M P Globals :=
  let* _ := os_environ_set P "TOKENIZERS_PARALLELISM" "false" in
  let* _ := os_makedirs P DOWNLOAD_DIR in
  let* metadata := fetch_model_metadata in
  let MODEL_TYPE := fst metadata in
  let QUANTIZATION_TYPE := snd metadata in
  if negb (truthy MODEL_TYPE) || negb (truthy QUANTIZATION_TYPE)
  then raise ValueError
  else
    match QUANTIZATION_TYPE with
    | PyStr q =>
        ret {| MODEL_TYPE := MODEL_TYPE;
               QUANTIZATION_TYPE := q;
               GGUF_PATH := os_path_join SAVE_DIR
                              (MODEL_SHORTNAME +:+ "-" +:+ str_upper P q +:+ ".gguf") |}
    | _ => raise AttributeError   (* only a str has the method upper *)
    end.

Section Stages.

Variable g : Globals.

Definition download_cmd : list string :=
  ["huggingface-cli"; "download"; MODEL_NAME; "--local-dir"; SAVE_DIR;
   "--resume-download"].

Definition download_model : M P unit :=
  let* missing :=
    (if negb (Args.skip_download args)
     then let* found := os_path_exists P SAVE_DIR in ret (negb found)
     else ret false) in
  if missing then
    let* _ := os_makedirs P SAVE_DIR in
    subprocess_run P download_cmd
  else ret tt.

(** More than one checkpoint file only prints a warning. *)
Definition check_model_files : M P unit :=
  let* files := os_listdir P SAVE_DIR in
  let pytorch_model_files :=
    List.filter (Str.endswith_any [".bin"; ".safetensors"]) files in
  ret tt.

Definition update_llama_cpp : M P unit :=
  let* found := os_path_exists P LLAMA_CPP_DIR in
  let* _ :=
    (if negb found
     then subprocess_run P
            ["git"; "clone"; "https://github.com/ggerganov/llama.cpp"; LLAMA_CPP_DIR]
     else subprocess_run P ["git"; "-C"; LLAMA_CPP_DIR; "pull"]) in
  subprocess_run P ["git"; "-C"; LLAMA_CPP_DIR; "checkout"; "master"].

Definition convert_script : string :=
  os_path_join LLAMA_CPP_DIR "convert_hf_to_gguf.py".

Definition convert_cmd : list string :=
  ["python3"; convert_script; SAVE_DIR; "--outtype"; QUANTIZATION_TYPE g].

Definition convert_model : M P unit :=
  let* found := os_path_exists P convert_script in
  if negb found then raise FileNotFoundError
  else
    let* missing :=
      (if negb (Args.skip_conversion args)
       then let* present := os_path_exists P (GGUF_PATH g) in ret (negb present)
       else ret false) in
    if missing then subprocess_run P convert_cmd
    else ret tt.

Definition llama_bin : string :=
  os_path_join LLAMA_CPP_DIR "build/bin/llama-cli".

Definition run_cmd : list string :=
  [llama_bin; "-m"; GGUF_PATH g; "--n-gpu-layers"; n_gpu_layers MODEL_NAME;
   "--ctx-size"; "8192"; "-p"; "Write a 1000-word story."].

Definition run_model : M P unit :=
  if negb (Args.run_model args) then ret tt
  else
    let* found := os_path_exists P (GGUF_PATH g) in
    if found then subprocess_run P run_cmd
    else raise FileNotFoundError.

(** The body of [if __name__ == "__main__":]. *)
Definition main : M P unit :=
  let* _ := download_model in
  let* _ := check_model_files in
  let* _ := update_llama_cpp in
  let* _ := convert_model in
  run_model.

End Stages.

(** Running the file: the module body, then [main]. *)
Definition script : M P unit :=
  let* g := module_level in main g.

End Script.

(** ** A simulated platform

    A small executable platform on which the script can be run: the world
    is the set of existing paths together with the configurations served by
    the hub. Children exit with status 0 and leave the world unchanged.
    Its [str.upper] changes ASCII letters only. *)

Module Sim.

Record world := {
  files : gset string;
  hub : gmap string Config
}.

(** Names directly under directory [dir]. *)
Definition entries (dir : string) (fs : gset string) : list string :=
  omap (fun path =>
          let base := dir +:+ "/" in
          let n := String.length base in
          let name := String.substring n (String.length path - n) path in
          if Str.startswith base path && negb (Str.contains "/" name)
          then Some name else None)
       (elements fs).

Definition platform (dir : string) : Platform := {|
  World := world;
  script_dir := dir;
  str_upper := Str.ascii_upper;
  str_upper_ascii := fun _ _ => eq_refl;
  putenv := fun _ _ w => w;
  makedirs := fun path w =>
    (Done tt, {| files := {[path]} ∪ files w; hub := hub w |});
  from_pretrained := fun name w =>
    (match hub w !! name with
     | Some config => Done config
     | None => Raised OSError
     end, w);
  path_exists := fun path w => bool_decide (path ∈ files w);
  listdir := fun path w =>
    (if bool_decide (path ∈ files w)
     then Done (entries path (files w))
     else Raised FileNotFoundError, w);
  spawn := fun _ w => (Done 0%Z, w)
|}.

Definition flags (name : string) (skip_dl skip_conv run : bool) : Args.t :=
  {| Args.model := name; Args.skip_download := skip_dl;
     Args.skip_conversion := skip_conv; Args.run_model := run;
     Args.verbose := false |}.

Definition llama_config (quant : option pyval) : Config :=
  {| quantization_config := quant; model_type := Some (PyStr "llama") |}.

(** A checkout of the tool under [/opt/tool], a world with the given
    paths and an empty hub, and the names bound by a module body that
    fetched the default quantization type for the alias [llama-3b]. *)
Definition tool : Platform := platform "/opt/tool".

Definition disk (paths : gset string) : world :=
  {| files := paths; hub := ∅ |}.

Definition llama_f16 : Globals :=
  {| MODEL_TYPE := PyStr "llama";
     QUANTIZATION_TYPE := "f16";
     GGUF_PATH :=
       "/opt/tool/models/Llama-3.2-3B-Instruct/Llama-3.2-3B-Instruct-F16.gguf" |}.

End Sim.

(** ** The commands of the toolchain sync and the calls of [main] *)

(** The three argument lists of [update_llama_cpp]. *)
Definition clone_cmd (P : Platform) : list string :=
  ["git"; "clone"; "https://github.com/ggerganov/llama.cpp"; LLAMA_CPP_DIR P].

Definition pull_cmd (P : Platform) : list string :=
  ["git"; "-C"; LLAMA_CPP_DIR P; "pull"].

Definition checkout_cmd (P : Platform) : list string :=
  ["git"; "-C"; LLAMA_CPP_DIR P; "checkout"; "master"].

(** The git command that [update_llama_cpp] starts first in world [w]. *)
Definition sync_cmd (P : Platform) (w : World P) : list string :=
  if path_exists P (LLAMA_CPP_DIR P) w then pull_cmd P else clone_cmd P.

(** The outside calls written in [main], stage by stage in program order;
    [sync] stands for the clone or the pull. *)
Definition main_calls (P : Platform) (args : Args.t) (g : Globals)
    (sync : list string) : list event :=
  [PathExists (SAVE_DIR P args); MakeDirs (SAVE_DIR P args);
   Spawn (download_cmd P args)]
  ++ [ListDir (SAVE_DIR P args)]
  ++ [PathExists (LLAMA_CPP_DIR P); Spawn sync; Spawn (checkout_cmd P)]
  ++ [PathExists (convert_script P); PathExists (GGUF_PATH g);
      Spawn (convert_cmd P args g)]
  ++ [PathExists (GGUF_PATH g); Spawn (run_cmd P args g)].

(** Decides that a list of calls is a subsequence of a longer one. *)
Ltac solve_sublist :=
  repeat first [apply sublist_nil_l | apply sublist_skip | apply sublist_cons].

(** The last character of a string. *)
Fixpoint last_char (s : string) : option ascii :=
  match s with
  | EmptyString => None
  | String c EmptyString => Some c
  | String _ t => last_char t
  end.

(** ** A simulated platform with failing children

    As [Sim.platform], except that a child exits with the status that
    [exit] gives for its argument list. *)

Module Faulty.

Definition platform (dir : string) (exit : list string -> Z) : Platform := {|
  World := Sim.world;
  script_dir := dir;
  str_upper := str_upper (Sim.platform dir);
  str_upper_ascii := str_upper_ascii (Sim.platform dir);
  putenv := putenv (Sim.platform dir);
  makedirs := makedirs (Sim.platform dir);
  from_pretrained := from_pretrained (Sim.platform dir);
  path_exists := path_exists (Sim.platform dir);
  listdir := listdir (Sim.platform dir);
  spawn := fun argv w => (Done (exit argv), w)
|}.

(** Every child exits with status 1. *)
Definition tool : Platform := platform "/opt/tool" (fun _ => 1%Z).

(** Only the children whose program is [prog] exit with status 1. *)
Definition exit_of (prog : string) (argv : list string) : Z :=
  match argv with
  | program :: _ => if String.eqb program prog then 1%Z else 0%Z
  | [] => 0%Z
  end.

(** As [Sim.platform], on a filesystem that refuses to make directories. *)
Definition read_only (dir : string) : Platform := {|
  World := Sim.world;
  script_dir := dir;
  str_upper := str_upper (Sim.platform dir);
  str_upper_ascii := str_upper_ascii (Sim.platform dir);
  putenv := putenv (Sim.platform dir);
  makedirs := fun _ w => (Raised OSError, w);
  from_pretrained := from_pretrained (Sim.platform dir);
  path_exists := path_exists (Sim.platform dir);
  listdir := listdir (Sim.platform dir);
  spawn := spawn (Sim.platform dir)
|}.


End Faulty.

(** * Properties *)

(** ** Strings *)

Section StringFacts.

(* Let [simpl] compute the append of a string that starts with known
   characters. *)
#[local] Arguments String.append !_ _ / : simpl nomatch.

Lemma prefix_app (p s : string) :
  String.prefix p s = true <-> exists rest, s = p +:+ rest.
Proof.
  revert s; induction p as [|c p IH]; intros s; simpl.
  - destruct s; split; eauto.
  - destruct s as [|d s]; simpl.
    + split; [discriminate | intros [rest H]; discriminate].
    + destruct (Ascii.ascii_dec c d) as [->|Hne].
      * rewrite IH. split; intros [rest H]; exists rest; simpl in *; congruence.
      * split; [discriminate | intros [rest H]; simpl in H; congruence].
Qed.

(** [sub in s] holds exactly when [s] splits around an occurrence of
    [sub]. *)
Lemma contains_app (sub s : string) :
  Str.contains sub s = true <-> exists before after, s = before +:+ sub +:+ after.
Proof.
  induction s as [|c s IH]; cbn [Str.contains].
  - rewrite orb_false_r, prefix_app. split.
    + intros [rest H]. exists "", rest. exact H.
    + intros [[|d before] [after H]]; simpl in H; [eauto | discriminate].
  - rewrite orb_true_iff, prefix_app, IH. split.
    + intros [[rest H] | (before & after & H)].
      * exists "", rest. exact H.
      * exists (String c before), after. simpl. congruence.
    + intros ([|d before] & after & H); simpl in H.
      * left. eauto.
      * right. injection H as -> ->. eauto.
Qed.

Lemma endswith_app (suf s : string) :
  Str.endswith suf s = true <-> exists before, s = before +:+ suf.
Proof.
  induction s as [|c s IH]; cbn [Str.endswith].
  - rewrite orb_false_r, String.eqb_eq. split.
    + intros ->. exists "". reflexivity.
    + intros [[|d before] H]; simpl in H; [congruence | discriminate].
  - rewrite orb_true_iff, String.eqb_eq, IH. split.
    + intros [-> | [before ->]].
      * exists "". reflexivity.
      * exists (String c before). reflexivity.
    + intros [[|d before] H]; simpl in H.
      * left. congruence.
      * right. injection H as -> ->. eauto.
Qed.

(** The characters that [upper_char] moves are the letters of
    [ascii_lowercase]. *)
Lemma upper_char_fixed (c : ascii) :
  Str.upper_char c = c <-> Str.occurs c Str.ascii_lowercase = false.
Proof.
  destruct c as [[] [] [] [] [] [] [] []]; vm_compute; split; congruence.
Qed.

(** On ASCII text, upper-casing changes a string exactly when the string
    has a letter of [ascii_lowercase]. *)
Lemma ascii_upper_fixed (s : string) :
  Str.ascii_upper s = s <-> Str.has_lower s = false.
Proof.
  induction s as [|c s IH]; cbn [Str.ascii_upper Str.has_lower].
  - tauto.
  - rewrite orb_false_iff, <- IH, <- upper_char_fixed.
    split; [intros H; injection H; auto | intros [-> ->]; reflexivity].
Qed.

Lemma append_assoc (a b c : string) : (a +:+ b) +:+ c = a +:+ (b +:+ c).
Proof. induction a as [|x a IH]; simpl; congruence. Qed.

Lemma append_empty_r (a : string) : a +:+ "" = a.
Proof. induction a as [|x a IH]; simpl; congruence. Qed.

Lemma split_nonempty (sep : ascii) (s : string) : Str.split sep s <> [].
Proof.
  destruct s as [|c s]; simpl; [discriminate|].
  destruct (Ascii.eqb c sep); [discriminate|].
  destruct (Str.split sep s); discriminate.
Qed.

Lemma join_split (sep : ascii) (s : string) :
  Str.join sep (Str.split sep s) = s.
Proof.
  induction s as [|c s IH]; simpl; [reflexivity|].
  pose proof (split_nonempty sep s) as Hne.
  destruct (Ascii.eqb_spec c sep) as [->|Hc];
    destruct (Str.split sep s) as [|seg segs]; try done.
  - simpl in *. congruence.
  - destruct segs; simpl in *; congruence.
Qed.

Lemma split_segments (sep : ascii) (s : string) :
  Forall (fun seg => Str.contains (String sep "") seg = false) (Str.split sep s).
Proof.
  induction s as [|c s IH]; simpl.
  - repeat constructor.
  - destruct (Ascii.eqb_spec c sep) as [->|Hc].
    + constructor; [reflexivity | exact IH].
    + destruct (Str.split sep s) as [|seg segs]; [repeat constructor|].
      * simpl. destruct (Ascii.ascii_dec sep c); [congruence | reflexivity].
      * inversion IH as [|? ? Hseg Hsegs]; subst. constructor; [|exact Hsegs].
        simpl. destruct (Ascii.ascii_dec sep c); [congruence|]. exact Hseg.
Qed.

Lemma join_last (sep : ascii) (segs : list string) :
  segs <> [] ->
  exists before,
    Str.join sep segs = before +:+ List.last segs "" /\
    (before = "" \/ exists b, before = b +:+ String sep "").
Proof.
  induction segs as [|seg rest IH]; [done|]. intros _.
  destruct rest as [|seg' rest].
  - exists "". auto.
  - destruct IH as (before & Hjoin & Hbefore); [done|].
    change (List.last (seg :: seg' :: rest) "") with (List.last (seg' :: rest) "").
    change (Str.join sep (seg :: seg' :: rest))
      with (seg +:+ String sep (Str.join sep (seg' :: rest))).
    rewrite Hjoin. exists (seg +:+ String sep before). split.
    + rewrite append_assoc. reflexivity.
    + right. destruct Hbefore as [->|[b ->]].
      * exists seg. reflexivity.
      * exists (seg +:+ String sep b). rewrite append_assoc. reflexivity.
Qed.

(** The last segment holds no separator, and the string is that segment
    appended to nothing or to a prefix that ends with the separator. *)
Lemma last_split (sep : ascii) (s : string) :
  let seg := List.last (Str.split sep s) "" in
  Str.contains (String sep "") seg = false /\
  exists before, s = before +:+ seg /\
                 (before = "" \/ exists b, before = b +:+ String sep "").
Proof.
  pose proof (split_nonempty sep s) as Hne.
  pose proof (split_segments sep s) as Hall.
  pose proof (join_last sep _ Hne) as (before & Hjoin & Hbefore).
  rewrite join_split in Hjoin. split; [|eauto].
  rewrite Forall_forall in Hall. apply Hall.
  destruct (Str.split sep s) as [|x l]; [done|].
  apply list_elem_of_In.
  rewrite (app_removelast_last "" Hne) at 2.
  apply in_or_app. right. left. reflexivity.
Qed.

End StringFacts.

(** ** Alias resolution *)

(** C2. Alias resolution is a lookup in the static table that falls back on
    the argument itself: a key of [MODELS_ALIASES] resolves to its value,
    every other argument (whatever its form) to itself. The table has the
    two keys below and nothing but the [--model] argument enters the
    result. *)
Theorem alias_lookup_or_passthrough :
  forall args : Args.t,
    match MODELS_ALIASES !! Args.model args with
    | Some full => MODEL_NAME args = full
    | None => MODEL_NAME args = Args.model args
    end
    /\ (forall alias, alias ∈ dom MODELS_ALIASES <->
                      alias = "mlx-deepseek-32b" \/ alias = "llama-3b")
    /\ (Args.model args = "mlx-deepseek-32b" ->
        MODEL_NAME args = "mlx-community/DeepSeek-R1-Distill-Qwen-32B")
    /\ (Args.model args = "llama-3b" ->
        MODEL_NAME args = "mlx-community/Llama-3.2-3B-Instruct")
    /\ (Args.model args <> "mlx-deepseek-32b" -> Args.model args <> "llama-3b" ->
        MODEL_NAME args = Args.model args)
    /\ (forall args' : Args.t,
          Args.model args' = Args.model args -> MODEL_NAME args' = MODEL_NAME args).
Proof.
  intros args. unfold MODEL_NAME. repeat split.
  - destruct (MODELS_ALIASES !! Args.model args); reflexivity.
  - unfold MODELS_ALIASES. rewrite !dom_insert_L, dom_empty_L.
    rewrite !elem_of_union, !elem_of_singleton, elem_of_empty. tauto.
  - unfold MODELS_ALIASES. rewrite !dom_insert_L, dom_empty_L.
    rewrite !elem_of_union, !elem_of_singleton, elem_of_empty. tauto.
  - intros ->. reflexivity.
  - intros ->. reflexivity.
  - intros H1 H2. unfold MODELS_ALIASES.
    rewrite lookup_insert_ne, lookup_insert_ne, lookup_empty by congruence.
    reflexivity.
  - intros args' ->. reflexivity.
Qed.

Lemma alias_lookup_or_passthrough_witness :
  MODEL_NAME (Sim.flags "llama-3b" false false false)
    = "mlx-community/Llama-3.2-3B-Instruct"
  /\ MODEL_NAME (Sim.flags "org/Some Model!" true false true) = "org/Some Model!".
Proof.
  split.
  - destruct (alias_lookup_or_passthrough (Sim.flags "llama-3b" false false false))
      as (_ & _ & _ & Halias & _).
    apply Halias. reflexivity.
  - destruct (alias_lookup_or_passthrough (Sim.flags "org/Some Model!" true false true))
      as (_ & _ & _ & _ & Hother & _).
    apply Hother; simpl; congruence.
Defined.

(** ** The GPU-layer heuristic *)

Section FirstMatch.

Variable name : string.

(** In any table, the search followed by the lookup yields the value of
    the first entry whose key occurs in [name]. *)
Lemma first_match_entry (table before after : list (string * string))
      (size layers dflt : string) :
  table = before ++ (size, layers) :: after ->
  Forall (fun entry => Str.contains (fst entry) name = false) before ->
  Str.contains size name = true ->
  List.find (fun k => Str.contains k name) (map fst table) = Some size /\
  assoc_get table size dflt = layers.
Proof.
  intros -> Hbefore Hsize.
  induction Hbefore as [|[k v] before Hk _ IH]; simpl.
  - rewrite Hsize, String.eqb_refl. auto.
  - simpl in Hk. rewrite Hk. destruct IH as [-> ->].
    destruct (String.eqb_spec k size) as [->|_]; [congruence | auto].
Qed.

Lemma no_match_entry (table : list (string * string)) :
  Forall (fun entry => Str.contains (fst entry) name = false) table ->
  List.find (fun k => Str.contains k name) (map fst table) = None.
Proof.
  induction 1 as [|[k v] table Hk _ IH]; simpl; [reflexivity|].
  simpl in Hk. rewrite Hk. exact IH.
Qed.

End FirstMatch.

(** The claim as the specification words it: every name that contains "32B"
    gets "60". A name that also contains "72B" gets "40", the value of the
    earlier entry. *)
Lemma layers_32B_not_always_60 :
  ~ (forall name, Str.contains "32B" name = true -> n_gpu_layers name = "60").
Proof.
  intros H. specialize (H "org/Merge-72B-32B" eq_refl). vm_compute in H.
  discriminate H.
Qed.

(** C1 (amended). The layer count passed to the inference binary is the
    value of the first entry of the table, in its written order, whose key
    occurs in the model name. Hence a name that contains "32B" and does not
    contain "72B" (the only earlier key) gets "60", and a name that contains
    no key of the table gets the default "30". *)
Theorem n_gpu_layers_first_match :
  forall name : string,
    (forall before size layers after,
        n_gpu_layers_mapping = before ++ (size, layers) :: after ->
        Forall (fun entry => Str.contains (fst entry) name = false) before ->
        Str.contains size name = true ->
        n_gpu_layers name = layers)
    /\ (Str.contains "32B" name = true -> Str.contains "72B" name = false ->
        n_gpu_layers name = "60")
    /\ (Forall (fun entry => Str.contains (fst entry) name = false)
               n_gpu_layers_mapping ->
        n_gpu_layers name = "30")
    /\ (forall P args g,
          MODEL_NAME args = name ->
          exists bin path,
            run_cmd P args g =
              [bin; "-m"; path; "--n-gpu-layers"; n_gpu_layers name;
               "--ctx-size"; "8192"; "-p"; "Write a 1000-word story."]).
Proof.
  intros name.
  assert (Hfirst : forall before size layers after,
             n_gpu_layers_mapping = before ++ (size, layers) :: after ->
             Forall (fun entry => Str.contains (fst entry) name = false) before ->
             Str.contains size name = true ->
             n_gpu_layers name = layers).
  { intros before size layers after Htable Hbefore Hsize.
    destruct (first_match_entry name _ _ _ _ _ "30" Htable Hbefore Hsize) as [Hfind Hget].
    unfold n_gpu_layers, model_size. rewrite Hfind. exact Hget. }
  split; [exact Hfirst|]. split; [|split].
  - intros H32 H72.
    apply (Hfirst [("72B", "40")] "32B" "60"
                  [("14B", "70"); ("12B", "70"); ("7B", "80"); ("3B", "90"); ("1B", "100")]).
    + reflexivity.
    + constructor; [exact H72 | constructor].
    + exact H32.
  - intros Hnone. unfold n_gpu_layers, model_size.
    rewrite (no_match_entry name _ Hnone). reflexivity.
  - intros P args g <-. unfold run_cmd. eauto.
Qed.

Lemma n_gpu_layers_first_match_witness :
  n_gpu_layers "mlx-community/DeepSeek-R1-Distill-Qwen-32B" = "60"
  /\ n_gpu_layers "org/tiny-llama" = "30".
Proof.
  split.
  - destruct (n_gpu_layers_first_match "mlx-community/DeepSeek-R1-Distill-Qwen-32B")
      as (_ & H32 & _).
    apply H32; reflexivity.
  - destruct (n_gpu_layers_first_match "org/tiny-llama") as (_ & _ & Hnone & _).
    apply Hnone. repeat constructor.
Defined.

(** ** Sequencing *)

Section BindFacts.

Context {P : Platform}.

(** An exception cuts the rest of the sequence off. *)
Lemma bind_raised {A B} (m : M P A) (k : A -> M P B) w e w' t :
  m w = (Raised e, w', t) -> bind m k w = (Raised e, w', t).
Proof. intros H. unfold bind. rewrite H. reflexivity. Qed.

(** A sequence whose first part completes ends as its continuation
    does. *)
Lemma bind_done_then {A B} (m : M P A) (k : A -> M P B) w a w' t r w'' t' :
  m w = (Done a, w', t) -> k a w' = (r, w'', t') ->
  bind m k w = (r, w'', t ++ t').
Proof. intros Hm Hk. unfold bind. rewrite Hm, Hk. reflexivity. Qed.

Lemma bind_assoc {A B C} (m : M P A) (f : A -> M P B) (k : B -> M P C) w :
  bind (bind m f) k w = bind m (fun a => bind (f a) k) w.
Proof.
  unfold bind. destruct (m w) as [[[a|e] w1] t1]; [|reflexivity].
  destruct (f a w1) as [[[b|e] w2] t2]; [|reflexivity].
  destruct (k b w2) as [[r w3] t3]. rewrite app_assoc. reflexivity.
Qed.

(** [subprocess.run(argv, check=True)] in terms of what the child does. *)
Lemma subprocess_run_spawn (argv : list string) w :
  subprocess_run P argv w =
    (match fst (spawn P argv w) with
     | Done status => if (status =? 0)%Z then Done tt else Raised CalledProcessError
     | Raised e => Raised e
     end, snd (spawn P argv w), [Spawn argv]).
Proof. unfold subprocess_run. destruct (spawn P argv w). reflexivity. Qed.

End BindFacts.

(** ** Metadata fetch *)



(** ** Download stage *)

Section DownloadCases.

Variables (P : Platform) (args : Args.t) (w : World P).

Lemma download_model_skipped :
  Args.skip_download args = true ->
  download_model P args w = (Done tt, w, []).
Proof. intros H. unfold download_model. unfold_M. rewrite H. reflexivity. Qed.

Lemma download_model_present :
  Args.skip_download args = false ->
  path_exists P (SAVE_DIR P args) w = true ->
  download_model P args w = (Done tt, w, [PathExists (SAVE_DIR P args)]).
Proof.
  intros Hflag Hdir. unfold download_model. unfold_M.
  rewrite Hflag. simpl. rewrite Hdir. reflexivity.
Qed.

Lemma download_model_absent :
  Args.skip_download args = false ->
  path_exists P (SAVE_DIR P args) w = false ->
  let fetch := bind (os_makedirs P (SAVE_DIR P args))
                    (fun _ => subprocess_run P (download_cmd P args)) w in
  download_model P args w =
    (result fetch, world fetch, PathExists (SAVE_DIR P args) :: trace fetch).
Proof.
  intros Hflag Hdir. unfold download_model. unfold_M.
  rewrite Hflag. simpl. rewrite Hdir. simpl.
  destruct (makedirs P (SAVE_DIR P args) w) as [[[]|e] w1]; [|reflexivity].
  destruct (spawn P (download_cmd P args) w1) as [r w2]. reflexivity.
Qed.

End DownloadCases.

(** C4, as the specification words it: the download is started exactly
    when the flag is unset and the save directory is absent. On a filesystem
    that refuses to make the save directory both conditions hold and no
    child is started: [os.makedirs] raises before the download. *)
Lemma download_not_started_when_makedirs_raises :
  ~ (forall (P : Platform) (args : Args.t) (w : World P),
        In (Spawn (download_cmd P args)) (trace (download_model P args w)) <->
        Args.skip_download args = false /\
        path_exists P (SAVE_DIR P args) w = false).
Proof.
  intros Hclaim.
  destruct (Hclaim (Faulty.read_only "/opt/tool")
              (Sim.flags "llama-3b" false false false) (Sim.disk ∅)) as [_ Hstart].
  assert (Hin : In (Spawn (download_cmd (Faulty.read_only "/opt/tool")
                             (Sim.flags "llama-3b" false false false)))
                   (trace (download_model (Faulty.read_only "/opt/tool")
                             (Sim.flags "llama-3b" false false false) (Sim.disk ∅)))).
  { apply Hstart. split; vm_compute; reflexivity. }
  vm_compute in Hin. destruct Hin as [H|[H|[]]]; discriminate H.
Qed.

(** C4 (amended). The download stage starts the download tool exactly when
    [--skip-download] is unset, the save directory does not exist and the
    directory can be made. The stage then has checked the directory, made
    it and started the tool with the six arguments below, in this order,
    and it ends as the child does: normally on exit status 0, with
    [CalledProcessError] on another status, in the world the child left.
    When [os.makedirs] raises, the stage ends with that exception and no
    child. When the directory exists, whatever it holds, or when the flag is
    set, no child is started and the world is left as it was; with the flag
    set the directory is not even looked at. *)
Theorem download_iff_absent_and_created :
  forall (P : Platform) (args : Args.t) (w : World P),
    (In (Spawn (download_cmd P args)) (trace (download_model P args w)) <->
     Args.skip_download args = false /\
     path_exists P (SAVE_DIR P args) w = false /\
     exists w1, makedirs P (SAVE_DIR P args) w = (Done tt, w1))
    /\ (Args.skip_download args = false ->
        path_exists P (SAVE_DIR P args) w = false ->
        forall w1, makedirs P (SAVE_DIR P args) w = (Done tt, w1) ->
        download_model P args w =
          (match fst (spawn P ["huggingface-cli"; "download"; MODEL_NAME args;
                               "--local-dir"; SAVE_DIR P args; "--resume-download"]
                        w1) with
           | Done status =>
               if (status =? 0)%Z then Done tt else Raised CalledProcessError
           | Raised e => Raised e
           end,
           snd (spawn P ["huggingface-cli"; "download"; MODEL_NAME args;
                         "--local-dir"; SAVE_DIR P args; "--resume-download"] w1),
           [PathExists (SAVE_DIR P args); MakeDirs (SAVE_DIR P args);
            Spawn ["huggingface-cli"; "download"; MODEL_NAME args;
                   "--local-dir"; SAVE_DIR P args; "--resume-download"]]))
    /\ (Args.skip_download args = false ->
        path_exists P (SAVE_DIR P args) w = false ->
        forall e w1, makedirs P (SAVE_DIR P args) w = (Raised e, w1) ->
        download_model P args w =
          (Raised e, w1, [PathExists (SAVE_DIR P args); MakeDirs (SAVE_DIR P args)]))
    /\ (path_exists P (SAVE_DIR P args) w = true ->
        download_model P args w =
          (Done tt, w,
           if Args.skip_download args then [] else [PathExists (SAVE_DIR P args)]))
    /\ (Args.skip_download args = true ->
        download_model P args w = (Done tt, w, [])).
Proof.
  intros P args w.
  assert (Hmade : Args.skip_download args = false ->
                  path_exists P (SAVE_DIR P args) w = false ->
                  forall w1, makedirs P (SAVE_DIR P args) w = (Done tt, w1) ->
                  download_model P args w =
                    (result (subprocess_run P (download_cmd P args) w1),
                     world (subprocess_run P (download_cmd P args) w1),
                     [PathExists (SAVE_DIR P args); MakeDirs (SAVE_DIR P args);
                      Spawn (download_cmd P args)])).
  { intros Hflag Hdir w1 Hmk. rewrite download_model_absent by assumption.
    unfold bind, os_makedirs. rewrite Hmk, subprocess_run_spawn. reflexivity. }
  assert (Hrefused : Args.skip_download args = false ->
                     path_exists P (SAVE_DIR P args) w = false ->
                     forall e w1, makedirs P (SAVE_DIR P args) w = (Raised e, w1) ->
                     download_model P args w =
                       (Raised e, w1,
                        [PathExists (SAVE_DIR P args); MakeDirs (SAVE_DIR P args)])).
  { intros Hflag Hdir e w1 Hmk. rewrite download_model_absent by assumption.
    unfold bind, os_makedirs. rewrite Hmk. reflexivity. }
  split; [|split; [|split; [|split]]].
  - destruct (Args.skip_download args) eqn:Hflag.
    { rewrite download_model_skipped by exact Hflag. simpl. split.
      - intros [].
      - intros [H _]. discriminate H. }
    destruct (path_exists P (SAVE_DIR P args) w) eqn:Hdir.
    { rewrite download_model_present by assumption. simpl. split.
      - intros [H|[]]. discriminate H.
      - intros (_ & H & _). discriminate H. }
    destruct (makedirs P (SAVE_DIR P args) w) as [[[]|e] w1] eqn:Hmk.
    + rewrite (Hmade eq_refl eq_refl w1 eq_refl). simpl. split.
      * intros _. eauto.
      * intros _. right. right. left. reflexivity.
    + rewrite (Hrefused eq_refl eq_refl e w1 eq_refl). simpl. split.
      * intros [H|[H|[]]]; discriminate H.
      * intros (_ & _ & w1' & H). discriminate H.
  - intros Hflag Hdir w1 Hmk. rewrite (Hmade Hflag Hdir w1 Hmk).
    rewrite subprocess_run_spawn. reflexivity.
  - exact Hrefused.
  - intros Hdir. destruct (Args.skip_download args) eqn:Hflag.
    + apply download_model_skipped. exact Hflag.
    + apply download_model_present; assumption.
  - apply download_model_skipped.
Qed.

Lemma download_iff_absent_and_created_witness :
  download_model Faulty.tool (Sim.flags "llama-3b" false false false) (Sim.disk ∅)
  = (Raised CalledProcessError,
     {| Sim.files := {["/opt/tool/models/Llama-3.2-3B-Instruct"]} ∪ ∅; Sim.hub := ∅ |},
     [PathExists "/opt/tool/models/Llama-3.2-3B-Instruct";
      MakeDirs "/opt/tool/models/Llama-3.2-3B-Instruct";
      Spawn ["huggingface-cli"; "download"; "mlx-community/Llama-3.2-3B-Instruct";
             "--local-dir"; "/opt/tool/models/Llama-3.2-3B-Instruct";
             "--resume-download"]])
  /\ download_model (Faulty.read_only "/opt/tool")
       (Sim.flags "llama-3b" false false false) (Sim.disk ∅)
     = (Raised OSError, Sim.disk ∅,
        [PathExists "/opt/tool/models/Llama-3.2-3B-Instruct";
         MakeDirs "/opt/tool/models/Llama-3.2-3B-Instruct"])
  /\ download_model Sim.tool (Sim.flags "llama-3b" false false false)
       (Sim.disk {["/opt/tool/models/Llama-3.2-3B-Instruct"]})
     = (Done tt, Sim.disk {["/opt/tool/models/Llama-3.2-3B-Instruct"]},
        [PathExists "/opt/tool/models/Llama-3.2-3B-Instruct"]).
Proof.
  split; [|split].
  - destruct (download_iff_absent_and_created Faulty.tool
                (Sim.flags "llama-3b" false false false) (Sim.disk ∅))
      as (_ & Hrun & _).
    apply (Hrun eq_refl); reflexivity.
  - destruct (download_iff_absent_and_created (Faulty.read_only "/opt/tool")
                (Sim.flags "llama-3b" false false false) (Sim.disk ∅))
      as (_ & _ & Hrefused & _).
    apply (Hrefused eq_refl); reflexivity.
  - destruct (download_iff_absent_and_created Sim.tool
                (Sim.flags "llama-3b" false false false)
                (Sim.disk {["/opt/tool/models/Llama-3.2-3B-Instruct"]}))
      as (_ & _ & _ & Hthere & _).
    apply Hthere. vm_compute. reflexivity.
Defined.

(** ** Conversion stage *)

Section ConvertCases.

Variables (P : Platform) (args : Args.t) (g : Globals) (w : World P).

Lemma convert_model_no_script :
  path_exists P (convert_script P) w = false ->
  convert_model P args g w =
    (Raised FileNotFoundError, w, [PathExists (convert_script P)]).
Proof. intros H. unfold convert_model. unfold_M. rewrite H. reflexivity. Qed.

Lemma convert_model_skipped :
  path_exists P (convert_script P) w = true ->
  Args.skip_conversion args = true ->
  convert_model P args g w = (Done tt, w, [PathExists (convert_script P)]).
Proof.
  intros Hscript Hflag. unfold convert_model. unfold_M.
  rewrite Hscript, Hflag. reflexivity.
Qed.

Lemma convert_model_present :
  path_exists P (convert_script P) w = true ->
  Args.skip_conversion args = false ->
  path_exists P (GGUF_PATH g) w = true ->
  convert_model P args g w =
    (Done tt, w, [PathExists (convert_script P); PathExists (GGUF_PATH g)]).
Proof.
  intros Hscript Hflag Hgguf. unfold convert_model. unfold_M.
  rewrite Hscript, Hflag. simpl. rewrite Hgguf. reflexivity.
Qed.

Lemma convert_model_absent :
  path_exists P (convert_script P) w = true ->
  Args.skip_conversion args = false ->
  path_exists P (GGUF_PATH g) w = false ->
  let child := subprocess_run P (convert_cmd P args g) w in
  convert_model P args g w =
    (result child, world child,
     [PathExists (convert_script P); PathExists (GGUF_PATH g);
      Spawn (convert_cmd P args g)]).
Proof.
  intros Hscript Hflag Hgguf. unfold convert_model. unfold_M.
  rewrite Hscript, Hflag. simpl. rewrite Hgguf. simpl.
  destruct (spawn P (convert_cmd P args g) w) as [r w']. reflexivity.
Qed.

End ConvertCases.

(** C5. Without the converter script [convert_hf_to_gguf.py] in the
    toolchain directory the conversion stage raises [FileNotFoundError]:
    nothing sequenced after the stage runs, and [main] ends with that
    exception as soon as the earlier stages have completed. With the script
    in place the converter is started exactly when [--skip-conversion] is
    unset and the GGUF artifact path does not exist. The stage then has
    looked for the script and for the artifact and started the converter
    with the five arguments below, and it ends as the child does: normally
    on exit status 0, with [CalledProcessError] on another status, in the
    world the child left. Otherwise the stage completes without a child and
    leaves the world as it was. *)
Theorem convert_requires_script :
  forall (P : Platform) (args : Args.t) (g : Globals) (w : World P),
    convert_script P = os_path_join (LLAMA_CPP_DIR P) "convert_hf_to_gguf.py"
    /\ (path_exists P (convert_script P) w = false ->
        (forall (B : Type) (k : unit -> M P B),
            bind (convert_model P args g) k w =
              (Raised FileNotFoundError, w, [PathExists (convert_script P)]))
        /\ (forall w0 w1 w2 t1 t2 t3,
              download_model P args w0 = (Done tt, w1, t1) ->
              check_model_files P args w1 = (Done tt, w2, t2) ->
              update_llama_cpp P w2 = (Done tt, w, t3) ->
              main P args g w0 =
                (Raised FileNotFoundError, w,
                 t1 ++ t2 ++ t3 ++ [PathExists (convert_script P)])))
    /\ (path_exists P (convert_script P) w = true ->
        (In (Spawn (convert_cmd P args g)) (trace (convert_model P args g w)) <->
         Args.skip_conversion args = false /\ path_exists P (GGUF_PATH g) w = false)
        /\ (Args.skip_conversion args = false ->
            path_exists P (GGUF_PATH g) w = false ->
            convert_model P args g w =
              (match fst (spawn P ["python3"; convert_script P; SAVE_DIR P args;
                                   "--outtype"; QUANTIZATION_TYPE g] w) with
               | Done status =>
                   if (status =? 0)%Z then Done tt else Raised CalledProcessError
               | Raised e => Raised e
               end,
               snd (spawn P ["python3"; convert_script P; SAVE_DIR P args;
                             "--outtype"; QUANTIZATION_TYPE g] w),
               [PathExists (convert_script P); PathExists (GGUF_PATH g);
                Spawn ["python3"; convert_script P; SAVE_DIR P args;
                       "--outtype"; QUANTIZATION_TYPE g]]))
        /\ (Args.skip_conversion args = false ->
            path_exists P (GGUF_PATH g) w = true ->
            convert_model P args g w =
              (Done tt, w, [PathExists (convert_script P); PathExists (GGUF_PATH g)]))
        /\ (Args.skip_conversion args = true ->
            convert_model P args g w =
              (Done tt, w, [PathExists (convert_script P)]))).
Proof.
  intros P args g w. split; [reflexivity|]. split.
  - intros Hscript.
    pose proof (convert_model_no_script P args g w Hscript) as Hraise. split.
    + intros B k. apply bind_raised. exact Hraise.
    + intros w0 w1 w2 t1 t2 t3 Hd Hc Hu. unfold main.
      apply (bind_done_then _ _ _ _ _ _ _ _ _ Hd).
      apply (bind_done_then _ _ _ _ _ _ _ _ _ Hc).
      apply (bind_done_then _ _ _ _ _ _ _ _ _ Hu).
      apply bind_raised. exact Hraise.
  - intros Hscript. split; [|split; [|split]].
    + destruct (Args.skip_conversion args) eqn:Hflag.
      { rewrite convert_model_skipped by assumption. simpl. split.
        - intros [H|[]]. discriminate H.
        - intros [H _]. discriminate H. }
      destruct (path_exists P (GGUF_PATH g) w) eqn:Hgguf.
      * rewrite convert_model_present by assumption. simpl. split.
        -- intros [H|[H|[]]]; discriminate H.
        -- intros [_ H]. discriminate H.
      * rewrite convert_model_absent by assumption. simpl. split; [auto|].
        intros _. right. right. left. reflexivity.
    + intros Hflag Hgguf. rewrite convert_model_absent by assumption.
      rewrite subprocess_run_spawn. reflexivity.
    + intros Hflag Hgguf. apply convert_model_present; assumption.
    + intros Hflag. apply convert_model_skipped; assumption.
Qed.

Lemma convert_requires_script_witness :
  main Sim.tool (Sim.flags "llama-3b" false false false) Sim.llama_f16
       (Sim.disk {["/opt/tool/models/Llama-3.2-3B-Instruct"; "/opt/tool/llama.cpp"]})
  = (Raised FileNotFoundError,
     Sim.disk {["/opt/tool/models/Llama-3.2-3B-Instruct"; "/opt/tool/llama.cpp"]},
     [PathExists "/opt/tool/models/Llama-3.2-3B-Instruct"]
       ++ [ListDir "/opt/tool/models/Llama-3.2-3B-Instruct"]
       ++ [PathExists "/opt/tool/llama.cpp";
           Spawn ["git"; "-C"; "/opt/tool/llama.cpp"; "pull"];
           Spawn ["git"; "-C"; "/opt/tool/llama.cpp"; "checkout"; "master"]]
       ++ [PathExists "/opt/tool/llama.cpp/convert_hf_to_gguf.py"])
  /\ convert_model Faulty.tool (Sim.flags "llama-3b" false false false) Sim.llama_f16
       (Sim.disk {["/opt/tool/llama.cpp/convert_hf_to_gguf.py"]})
     = (Raised CalledProcessError,
        Sim.disk {["/opt/tool/llama.cpp/convert_hf_to_gguf.py"]},
        [PathExists "/opt/tool/llama.cpp/convert_hf_to_gguf.py";
         PathExists "/opt/tool/models/Llama-3.2-3B-Instruct/Llama-3.2-3B-Instruct-F16.gguf";
         Spawn ["python3"; "/opt/tool/llama.cpp/convert_hf_to_gguf.py";
                "/opt/tool/models/Llama-3.2-3B-Instruct"; "--outtype"; "f16"]])
  /\ convert_model Sim.tool (Sim.flags "llama-3b" false true false) Sim.llama_f16
       (Sim.disk {["/opt/tool/llama.cpp/convert_hf_to_gguf.py"]})
     = (Done tt, Sim.disk {["/opt/tool/llama.cpp/convert_hf_to_gguf.py"]},
        [PathExists "/opt/tool/llama.cpp/convert_hf_to_gguf.py"]).
Proof.
  split; [|split].
  - destruct (convert_requires_script Sim.tool
                (Sim.flags "llama-3b" false false false) Sim.llama_f16
                (Sim.disk {["/opt/tool/models/Llama-3.2-3B-Instruct";
                            "/opt/tool/llama.cpp"]}))
      as (_ & Habsent & _).
    destruct Habsent as [_ Hmain]; [vm_compute; reflexivity|].
    eapply Hmain; vm_compute; reflexivity.
  - destruct (convert_requires_script Faulty.tool
                (Sim.flags "llama-3b" false false false) Sim.llama_f16
                (Sim.disk {["/opt/tool/llama.cpp/convert_hf_to_gguf.py"]}))
      as (_ & _ & Hpresent).
    destruct Hpresent as (_ & Hrun & _); [vm_compute; reflexivity|].
    apply Hrun; vm_compute; reflexivity.
  - destruct (convert_requires_script Sim.tool
                (Sim.flags "llama-3b" false true false) Sim.llama_f16
                (Sim.disk {["/opt/tool/llama.cpp/convert_hf_to_gguf.py"]}))
      as (_ & _ & Hpresent).
    destruct Hpresent as (_ & _ & _ & Hskip); [vm_compute; reflexivity|].
    apply Hskip. reflexivity.
Defined.

(** C8. The look for the converter script comes before the skip
    conditions. It is the first outside call of every run of the conversion
    stage, and when the script is missing the stage raises
    [FileNotFoundError] for every combination of the flags, also with
    [--skip-conversion] set and also with the GGUF artifact in place: the
    artifact path is not looked at and no child is started. *)
Theorem convert_checks_script_first :
  forall (P : Platform) (name : string) (skip_dl skip_conv run vb : bool)
         (g : Globals) (w : World P),
    let args := {| Args.model := name; Args.skip_download := skip_dl;
                   Args.skip_conversion := skip_conv; Args.run_model := run;
                   Args.verbose := vb |} in
    (exists rest,
        trace (convert_model P args g w) = PathExists (convert_script P) :: rest)
    /\ (path_exists P (convert_script P) w = false ->
        convert_model P args g w =
          (Raised FileNotFoundError, w, [PathExists (convert_script P)])).
Proof.
  intros P name skip_dl skip_conv run vb g w args. split.
  - destruct (path_exists P (convert_script P) w) eqn:Hscript.
    + destruct (Args.skip_conversion args) eqn:Hflag.
      { rewrite convert_model_skipped by assumption. simpl. eauto. }
      destruct (path_exists P (GGUF_PATH g) w) eqn:Hgguf.
      * rewrite convert_model_present by assumption. simpl. eauto.
      * rewrite convert_model_absent by assumption. simpl. eauto.
    + rewrite convert_model_no_script by assumption. simpl. eauto.
  - apply convert_model_no_script.
Qed.

Lemma convert_checks_script_first_witness :
  convert_model (Sim.platform "/opt/tool") (Sim.flags "llama-3b" true true true)
    {| MODEL_TYPE := PyStr "llama"; QUANTIZATION_TYPE := "f16";
       GGUF_PATH := "/opt/tool/models/Llama-3.2-3B-Instruct/Llama-3.2-3B-Instruct-F16.gguf" |}
    {| Sim.files :=
         {["/opt/tool/models/Llama-3.2-3B-Instruct/Llama-3.2-3B-Instruct-F16.gguf"]};
       Sim.hub := ∅ |}
  = (Raised FileNotFoundError,
     {| Sim.files :=
          {["/opt/tool/models/Llama-3.2-3B-Instruct/Llama-3.2-3B-Instruct-F16.gguf"]};
        Sim.hub := ∅ |},
     [PathExists "/opt/tool/llama.cpp/convert_hf_to_gguf.py"]).
Proof.
  apply (convert_checks_script_first (Sim.platform "/opt/tool") "llama-3b"
           true true true false).
  vm_compute. reflexivity.
Defined.

(** ** Run stage *)

Section RunCases.

Variables (P : Platform) (args : Args.t) (g : Globals) (w : World P).

Lemma run_model_not_requested :
  Args.run_model args = false ->
  run_model P args g w = (Done tt, w, []).
Proof. intros H. unfold run_model. unfold_M. rewrite H. reflexivity. Qed.

Lemma run_model_no_artifact :
  Args.run_model args = true ->
  path_exists P (GGUF_PATH g) w = false ->
  run_model P args g w =
    (Raised FileNotFoundError, w, [PathExists (GGUF_PATH g)]).
Proof.
  intros Hflag Hgguf. unfold run_model. unfold_M.
  rewrite Hflag. simpl. rewrite Hgguf. reflexivity.
Qed.

End RunCases.

(** C6. With [--run-model] set and no file at the GGUF artifact path, the
    run stage raises [FileNotFoundError] after looking for the artifact,
    without starting the inference binary. Nothing catches the exception:
    [main] ends with it once the four earlier stages have completed. *)
Theorem run_requires_artifact :
  forall (P : Platform) (args : Args.t) (g : Globals) (w : World P),
    Args.run_model args = true ->
    path_exists P (GGUF_PATH g) w = false ->
    run_model P args g w =
      (Raised FileNotFoundError, w, [PathExists (GGUF_PATH g)])
    /\ (forall w0 w1 w2 w3 t1 t2 t3 t4,
          download_model P args w0 = (Done tt, w1, t1) ->
          check_model_files P args w1 = (Done tt, w2, t2) ->
          update_llama_cpp P w2 = (Done tt, w3, t3) ->
          convert_model P args g w3 = (Done tt, w, t4) ->
          main P args g w0 =
            (Raised FileNotFoundError, w,
             t1 ++ t2 ++ t3 ++ t4 ++ [PathExists (GGUF_PATH g)])).
Proof.
  intros P args g w Hflag Hgguf.
  pose proof (run_model_no_artifact P args g w Hflag Hgguf) as Hraise.
  split; [exact Hraise|].
  intros w0 w1 w2 w3 t1 t2 t3 t4 Hd Hc Hu Hv. unfold main.
  apply (bind_done_then _ _ _ _ _ _ _ _ _ Hd).
  apply (bind_done_then _ _ _ _ _ _ _ _ _ Hc).
  apply (bind_done_then _ _ _ _ _ _ _ _ _ Hu).
  apply (bind_done_then _ _ _ _ _ _ _ _ _ Hv).
  exact Hraise.
Qed.

Lemma run_requires_artifact_witness :
  run_model Sim.tool (Sim.flags "llama-3b" false false true) Sim.llama_f16
    (Sim.disk ({["/opt/tool/models/Llama-3.2-3B-Instruct"]}
                 ∪ {["/opt/tool/llama.cpp/convert_hf_to_gguf.py"]}))
  = (Raised FileNotFoundError,
     Sim.disk ({["/opt/tool/models/Llama-3.2-3B-Instruct"]}
                 ∪ {["/opt/tool/llama.cpp/convert_hf_to_gguf.py"]}),
     [PathExists (GGUF_PATH Sim.llama_f16)])
  /\ main Sim.tool (Sim.flags "llama-3b" false false true) Sim.llama_f16
       (Sim.disk {["/opt/tool/llama.cpp/convert_hf_to_gguf.py"]})
     = (Raised FileNotFoundError,
        Sim.disk ({["/opt/tool/models/Llama-3.2-3B-Instruct"]}
                    ∪ {["/opt/tool/llama.cpp/convert_hf_to_gguf.py"]}),
        [PathExists "/opt/tool/models/Llama-3.2-3B-Instruct";
         MakeDirs "/opt/tool/models/Llama-3.2-3B-Instruct";
         Spawn (download_cmd Sim.tool (Sim.flags "llama-3b" false false true))]
          ++ [ListDir "/opt/tool/models/Llama-3.2-3B-Instruct"]
          ++ [PathExists "/opt/tool/llama.cpp";
              Spawn ["git"; "clone"; "https://github.com/ggerganov/llama.cpp";
                     "/opt/tool/llama.cpp"];
              Spawn ["git"; "-C"; "/opt/tool/llama.cpp"; "checkout"; "master"]]
          ++ [PathExists "/opt/tool/llama.cpp/convert_hf_to_gguf.py";
              PathExists (GGUF_PATH Sim.llama_f16);
              Spawn (convert_cmd Sim.tool (Sim.flags "llama-3b" false false true)
                       Sim.llama_f16)]
          ++ [PathExists (GGUF_PATH Sim.llama_f16)]).
Proof.
  destruct (run_requires_artifact Sim.tool (Sim.flags "llama-3b" false false true)
              Sim.llama_f16
              (Sim.disk ({["/opt/tool/models/Llama-3.2-3B-Instruct"]}
                           ∪ {["/opt/tool/llama.cpp/convert_hf_to_gguf.py"]})))
    as [Hstage Hmain].
  - reflexivity.
  - vm_compute. reflexivity.
  - split; [exact Hstage|].
    eapply Hmain; vm_compute; reflexivity.
Defined.

(** C9. Without [--run-model] the run stage completes at once: it makes no
    outside call, so the GGUF artifact path is never looked at, and it
    leaves the world as it is, whether or not the artifact exists. Hence a
    run stage that raises, the missing-artifact error included, was asked
    for with [--run-model]. *)
Theorem run_skipped_without_flag :
  forall (P : Platform) (args : Args.t) (g : Globals) (w : World P),
    (Args.run_model args = false ->
     run_model P args g w = (Done tt, w, []))
    /\ (forall e, result (run_model P args g w) = Raised e ->
                  Args.run_model args = true).
Proof.
  intros P args g w. split.
  - apply run_model_not_requested.
  - intros e Hraised. destruct (Args.run_model args) eqn:Hflag; [reflexivity|].
    rewrite run_model_not_requested in Hraised by exact Hflag.
    discriminate Hraised.
Qed.

Lemma run_skipped_without_flag_witness :
  run_model (Sim.platform "/opt/tool") (Sim.flags "llama-3b" false false false)
    {| MODEL_TYPE := PyStr "llama"; QUANTIZATION_TYPE := "f16";
       GGUF_PATH := "/opt/tool/models/Llama-3.2-3B-Instruct/Llama-3.2-3B-Instruct-F16.gguf" |}
    {| Sim.files := ∅; Sim.hub := ∅ |}
  = (Done tt, {| Sim.files := ∅; Sim.hub := ∅ |}, []).
Proof.
  apply (run_skipped_without_flag (Sim.platform "/opt/tool")
           (Sim.flags "llama-3b" false false false)).
  reflexivity.
Defined.

(** ** The module body and the constructed paths *)

(** What a completed module body says about the names it binds. *)
Lemma module_level_done (P : Platform) (args : Args.t) w g w' t :
  module_level P args w = (Done g, w', t) ->
  exists w1 t1,
    makedirs P (DOWNLOAD_DIR P) (putenv P "TOKENIZERS_PARALLELISM" "false" w)
      = (Done tt, w1)
    /\ fetch_model_metadata P args w1
       = (Done (MODEL_TYPE g, PyStr (QUANTIZATION_TYPE g)), w', t1)
    /\ t = [PutEnv "TOKENIZERS_PARALLELISM" "false"; MakeDirs (DOWNLOAD_DIR P)] ++ t1
    /\ truthy (MODEL_TYPE g) = true
    /\ QUANTIZATION_TYPE g <> ""
    /\ GGUF_PATH g =
         os_path_join (SAVE_DIR P args)
           (MODEL_SHORTNAME args +:+ "-" +:+ str_upper P (QUANTIZATION_TYPE g)
              +:+ ".gguf").
Proof.
  unfold module_level.
  unfold bind at 1 2 3, os_environ_set, os_makedirs.
  destruct (makedirs P (DOWNLOAD_DIR P) _) as [[[]|e] w1] eqn:Hmk; [|discriminate].
  destruct (fetch_model_metadata P args w1) as [[[[mt q]|e] w2] t1] eqn:Hfetch;
    [|discriminate].
  cbn [fst snd].
  destruct (truthy mt) eqn:Hmt; [|discriminate].
  destruct (truthy q) eqn:Hq; [|discriminate].
  destruct q as [| | |q| |]; try discriminate.
  unfold ret. simpl. intros H. injection H as <- <- <-.
  exists w1, t1. simpl. repeat split; try assumption.
  - rewrite app_nil_r. reflexivity.
  - intros ->. discriminate Hq.
Qed.

Lemma os_path_join_ends (a b : string) :
  Str.endswith b (os_path_join a b) = true.
Proof.
  apply endswith_app. unfold os_path_join.
  destruct (Str.startswith "/" b); [exists ""; reflexivity|].
  destruct (String.eqb a "" || Str.endswith "/" a).
  - exists a. reflexivity.
  - exists (a +:+ "/"). rewrite append_assoc. reflexivity.
Qed.

Section PathFacts.

#[local] Arguments String.append !_ _ / : simpl nomatch.

Lemma append_length (a b : string) :
  String.length (a +:+ b) = String.length a + String.length b.
Proof. induction a as [|x a IH]; simpl; congruence. Qed.

Lemma append_inj_r (a b c : string) : a +:+ c = b +:+ c -> a = b.
Proof.
  revert b. induction a as [|x a IH]; intros [|y b] H; simpl in H.
  - reflexivity.
  - apply (f_equal String.length) in H. simpl in H.
    rewrite append_length in H. lia.
  - apply (f_equal String.length) in H. simpl in H.
    rewrite append_length in H. lia.
  - injection H as -> H. f_equal. apply IH. exact H.
Qed.

(** A relative second component is appended to the first one, with a
    separator that the first component alone decides. *)
Lemma os_path_join_relative (a b : string) :
  Str.startswith "/" b = false ->
  os_path_join a b =
    a +:+ (if String.eqb a "" || Str.endswith "/" a then "" else "/") +:+ b.
Proof.
  intros Hb. unfold os_path_join. rewrite Hb.
  destruct (String.eqb a "" || Str.endswith "/" a); reflexivity.
Qed.

Lemma segment_relative (seg rest : string) :
  Str.contains "/" seg = false ->
  Str.startswith "/" (seg +:+ "-" +:+ rest) = false.
Proof.
  destruct seg as [|c seg]; [reflexivity|].
  unfold Str.startswith. cbn [Str.contains String.prefix String.append].
  destruct (Ascii.ascii_dec "/" c); [|reflexivity].
  intros H. destruct seg; simpl in H; discriminate H.
Qed.

Lemma gguf_path_inj (dir short q1 q2 : string) :
  Str.contains "/" short = false ->
  os_path_join dir (short +:+ "-" +:+ q1 +:+ ".gguf") =
  os_path_join dir (short +:+ "-" +:+ q2 +:+ ".gguf") ->
  q1 = q2.
Proof.
  intros Hshort.
  rewrite !os_path_join_relative by (apply segment_relative; exact Hshort).
  intros H. do 4 apply String.app_inj in H.
  apply append_inj_r in H. exact H.
Qed.

End PathFacts.

(** C10. The name of the GGUF artifact carries the quantization type in
    upper case: the artifact path of a completed module body is the save
    directory joined with [<shortname>-<QUANT>.gguf], where [QUANT] is
    [QUANTIZATION_TYPE.upper()]. The conversion stage, when it converts,
    starts the converter with the fetched type itself, unchanged, after
    [--outtype], and ends as that child does. The artifact is named after
    the string the converter was given exactly when upper-casing leaves
    that string as it is, that is, when it is upper case already; for every
    ASCII string this is the case exactly when the string has none of the
    letters a to z. *)
Theorem gguf_name_uppercases_quantization :
  forall (P : Platform) (args : Args.t) (w w' : World P) (g : Globals) (t : list event),
    module_level P args w = (Done g, w', t) ->
    GGUF_PATH g =
      os_path_join (SAVE_DIR P args)
        (MODEL_SHORTNAME args +:+ "-" +:+ str_upper P (QUANTIZATION_TYPE g)
           +:+ ".gguf")
    /\ Str.endswith
         (MODEL_SHORTNAME args +:+ "-" +:+ str_upper P (QUANTIZATION_TYPE g)
            +:+ ".gguf")
         (GGUF_PATH g) = true
    /\ (exists w1 t1,
          fetch_model_metadata P args w1 =
            (Done (MODEL_TYPE g, PyStr (QUANTIZATION_TYPE g)), w', t1))
    /\ (forall w3 : World P,
          path_exists P (convert_script P) w3 = true ->
          Args.skip_conversion args = false ->
          path_exists P (GGUF_PATH g) w3 = false ->
          convert_model P args g w3 =
            (match fst (spawn P ["python3"; convert_script P; SAVE_DIR P args;
                                 "--outtype"; QUANTIZATION_TYPE g] w3) with
             | Done status =>
                 if (status =? 0)%Z then Done tt else Raised CalledProcessError
             | Raised e => Raised e
             end,
             snd (spawn P ["python3"; convert_script P; SAVE_DIR P args;
                           "--outtype"; QUANTIZATION_TYPE g] w3),
             [PathExists (convert_script P); PathExists (GGUF_PATH g);
              Spawn ["python3"; convert_script P; SAVE_DIR P args;
                     "--outtype"; QUANTIZATION_TYPE g]]))
    /\ (GGUF_PATH g =
          os_path_join (SAVE_DIR P args)
            (MODEL_SHORTNAME args +:+ "-" +:+ QUANTIZATION_TYPE g +:+ ".gguf")
        <-> str_upper P (QUANTIZATION_TYPE g) = QUANTIZATION_TYPE g)
    /\ (forall q : string,
          Str.is_ascii q = true ->
          (str_upper P q <> q <-> Str.has_lower q = true)).
Proof.
  intros P args w w' g t Hdone.
  destruct (module_level_done P args w g w' t Hdone)
    as (w1 & t1 & _ & Hfetch & _ & _ & _ & Hpath).
  split; [exact Hpath|]. split; [|split; [|split; [|split]]].
  - rewrite Hpath. apply os_path_join_ends.
  - eauto.
  - intros w3 Hscript Hflag Hgguf.
    rewrite convert_model_absent by assumption.
    rewrite subprocess_run_spawn. reflexivity.
  - rewrite Hpath. split.
    + apply gguf_path_inj. apply (last_split "/" (MODEL_NAME args)).
    + intros ->. reflexivity.
  - intros q Hascii. rewrite (str_upper_ascii P q Hascii), ascii_upper_fixed.
    destruct (Str.has_lower q); split; congruence.
Qed.

Lemma gguf_name_uppercases_quantization_witness :
  GGUF_PATH {| MODEL_TYPE := PyStr "llama"; QUANTIZATION_TYPE := "gptq";
               GGUF_PATH := "/opt/tool/models/Llama-3.2-3B-Instruct/Llama-3.2-3B-Instruct-GPTQ.gguf" |}
  = os_path_join "/opt/tool/models/Llama-3.2-3B-Instruct"
      ("Llama-3.2-3B-Instruct" +:+ "-" +:+ str_upper Faulty.tool "gptq" +:+ ".gguf")
  /\ convert_model Faulty.tool (Sim.flags "llama-3b" false false false)
       {| MODEL_TYPE := PyStr "llama"; QUANTIZATION_TYPE := "gptq";
          GGUF_PATH := "/opt/tool/models/Llama-3.2-3B-Instruct/Llama-3.2-3B-Instruct-GPTQ.gguf" |}
       (Sim.disk {["/opt/tool/llama.cpp/convert_hf_to_gguf.py"]})
     = (Raised CalledProcessError,
        Sim.disk {["/opt/tool/llama.cpp/convert_hf_to_gguf.py"]},
        [PathExists "/opt/tool/llama.cpp/convert_hf_to_gguf.py";
         PathExists "/opt/tool/models/Llama-3.2-3B-Instruct/Llama-3.2-3B-Instruct-GPTQ.gguf";
         Spawn ["python3"; "/opt/tool/llama.cpp/convert_hf_to_gguf.py";
                "/opt/tool/models/Llama-3.2-3B-Instruct"; "--outtype"; "gptq"]])
  /\ str_upper Faulty.tool "gptq" <> "gptq".
Proof.
  destruct (gguf_name_uppercases_quantization
              Faulty.tool (Sim.flags "llama-3b" false false false)
              {| Sim.files := ∅;
                 Sim.hub := {[ "mlx-community/Llama-3.2-3B-Instruct" :=
                                 Sim.llama_config
                                   (Some (PyDict {[ "quant_method" := PyStr "gptq" ]})) ]} |}
              {| Sim.files := {["/opt/tool/models"]} ∪ ∅;
                 Sim.hub := {[ "mlx-community/Llama-3.2-3B-Instruct" :=
                                 Sim.llama_config
                                   (Some (PyDict {[ "quant_method" := PyStr "gptq" ]})) ]} |}
              {| MODEL_TYPE := PyStr "llama"; QUANTIZATION_TYPE := "gptq";
                 GGUF_PATH := "/opt/tool/models/Llama-3.2-3B-Instruct/Llama-3.2-3B-Instruct-GPTQ.gguf" |}
              [PutEnv "TOKENIZERS_PARALLELISM" "false"; MakeDirs "/opt/tool/models";
               FromPretrained "mlx-community/Llama-3.2-3B-Instruct"])
    as (Hpath & _ & _ & Hconvert & _ & Hdiffer).
  - vm_compute. reflexivity.
  - split; [exact Hpath|]. split.
    + apply Hconvert; vm_compute; reflexivity.
    + apply (Hdiffer "gptq"); reflexivity.
Defined.

(** The claim as the specification words it: two runs with the same model
    name and the same script directory construct the same four paths. The
    hub may answer the two runs with different quantization types, and the
    GGUF artifact paths then differ. *)
Lemma gguf_path_not_determined_by_name_and_dir :
  ~ (forall (P1 P2 : Platform) (args1 args2 : Args.t)
            (w1 w1' : World P1) (w2 w2' : World P2) (g1 g2 : Globals)
            (t1 t2 : list event),
        script_dir P1 = script_dir P2 ->
        MODEL_NAME args1 = MODEL_NAME args2 ->
        module_level P1 args1 w1 = (Done g1, w1', t1) ->
        module_level P2 args2 w2 = (Done g2, w2', t2) ->
        DOWNLOAD_DIR P1 = DOWNLOAD_DIR P2 /\
        SAVE_DIR P1 args1 = SAVE_DIR P2 args2 /\
        LLAMA_CPP_DIR P1 = LLAMA_CPP_DIR P2 /\
        GGUF_PATH g1 = GGUF_PATH g2).
Proof.
  intros Hclaim.
  pose (args := Sim.flags "llama-3b" false false false).
  pose (hub1 := {[ "mlx-community/Llama-3.2-3B-Instruct" := Sim.llama_config None ]}
                : gmap string Config).
  pose (hub2 := {[ "mlx-community/Llama-3.2-3B-Instruct" :=
                     Sim.llama_config (Some (PyDict {[ "quant_method" := PyStr "gptq" ]})) ]}
                : gmap string Config).
  destruct (Hclaim (Sim.platform "/opt/tool") (Sim.platform "/opt/tool") args args
              {| Sim.files := ∅; Sim.hub := hub1 |}
              {| Sim.files := {["/opt/tool/models"]} ∪ ∅; Sim.hub := hub1 |}
              {| Sim.files := ∅; Sim.hub := hub2 |}
              {| Sim.files := {["/opt/tool/models"]} ∪ ∅; Sim.hub := hub2 |}
              {| MODEL_TYPE := PyStr "llama"; QUANTIZATION_TYPE := "f16";
                 GGUF_PATH := "/opt/tool/models/Llama-3.2-3B-Instruct/Llama-3.2-3B-Instruct-F16.gguf" |}
              {| MODEL_TYPE := PyStr "llama"; QUANTIZATION_TYPE := "gptq";
                 GGUF_PATH := "/opt/tool/models/Llama-3.2-3B-Instruct/Llama-3.2-3B-Instruct-GPTQ.gguf" |}
              [PutEnv "TOKENIZERS_PARALLELISM" "false"; MakeDirs "/opt/tool/models";
               FromPretrained "mlx-community/Llama-3.2-3B-Instruct"]
              [PutEnv "TOKENIZERS_PARALLELISM" "false"; MakeDirs "/opt/tool/models";
               FromPretrained "mlx-community/Llama-3.2-3B-Instruct"])
    as (_ & _ & _ & Hgguf); try (vm_compute; reflexivity).
  simpl in Hgguf. discriminate Hgguf.
Qed.

(** C7 (amended). The download directory, the save directory and the
    toolchain directory are functions of the model name and the script
    directory: two runs that agree on both construct the same three paths,
    [models] and [llama.cpp] under the script directory and the model
    shortname under [models]. The shortname is the last segment of the
    model name between ["/"]s. The GGUF artifact path is the save directory
    joined with [<shortname>-<QUANT>.gguf] and depends, besides the two, on
    the quantization type that the metadata fetch returned: two such runs
    construct the same artifact path exactly when their upper-cased
    quantization types are equal. *)
Theorem paths_determined_by_name_dir_and_quantization :
  forall (P1 P2 : Platform) (args1 args2 : Args.t),
    script_dir P1 = script_dir P2 ->
    MODEL_NAME args1 = MODEL_NAME args2 ->
    (DOWNLOAD_DIR P1 = DOWNLOAD_DIR P2 /\
     SAVE_DIR P1 args1 = SAVE_DIR P2 args2 /\
     LLAMA_CPP_DIR P1 = LLAMA_CPP_DIR P2)
    /\ (Str.endswith "models" (DOWNLOAD_DIR P1) = true /\
        Str.endswith "llama.cpp" (LLAMA_CPP_DIR P1) = true /\
        Str.endswith (MODEL_SHORTNAME args1) (SAVE_DIR P1 args1) = true)
    /\ (Str.contains "/" (MODEL_SHORTNAME args1) = false /\
        exists before,
          MODEL_NAME args1 = before +:+ MODEL_SHORTNAME args1 /\
          (before = "" \/ exists b, before = b +:+ "/"))
    /\ (forall (w1 w1' : World P1) (w2 w2' : World P2) (g1 g2 : Globals)
               (t1 t2 : list event),
          module_level P1 args1 w1 = (Done g1, w1', t1) ->
          module_level P2 args2 w2 = (Done g2, w2', t2) ->
          GGUF_PATH g1 =
            os_path_join (SAVE_DIR P1 args1)
              (MODEL_SHORTNAME args1 +:+ "-" +:+ str_upper P1 (QUANTIZATION_TYPE g1)
                 +:+ ".gguf")
          /\ (GGUF_PATH g1 = GGUF_PATH g2 <->
              str_upper P1 (QUANTIZATION_TYPE g1) = str_upper P2 (QUANTIZATION_TYPE g2))).
Proof.
  intros P1 P2 args1 args2 Hdir Hname.
  assert (Hshort : MODEL_SHORTNAME args1 = MODEL_SHORTNAME args2).
  { unfold MODEL_SHORTNAME. rewrite Hname. reflexivity. }
  assert (Hsave : SAVE_DIR P1 args1 = SAVE_DIR P2 args2).
  { unfold SAVE_DIR, DOWNLOAD_DIR, SCRIPT_DIR. rewrite Hdir, Hshort. reflexivity. }
  pose proof (last_split "/" (MODEL_NAME args1)) as [Hnosep Hlast].
  fold (MODEL_SHORTNAME args1) in Hnosep, Hlast.
  split; [|split; [|split]].
  - unfold LLAMA_CPP_DIR, DOWNLOAD_DIR, SCRIPT_DIR. rewrite Hdir. auto.
  - repeat split; apply os_path_join_ends.
  - split; [exact Hnosep | exact Hlast].
  - intros w1 w1' w2 w2' g1 g2 t1 t2 Hrun1 Hrun2.
    destruct (module_level_done _ _ _ _ _ _ Hrun1) as (_ & _ & _ & _ & _ & _ & _ & Hp1).
    destruct (module_level_done _ _ _ _ _ _ Hrun2) as (_ & _ & _ & _ & _ & _ & _ & Hp2).
    split; [exact Hp1|].
    rewrite Hp1, Hp2, <- Hsave, <- Hshort. split.
    + apply gguf_path_inj. exact Hnosep.
    + intros ->. reflexivity.
Qed.

Lemma paths_determined_by_name_dir_and_quantization_witness :
  SAVE_DIR (Sim.platform "/opt/tool") (Sim.flags "llama-3b" false false false)
  = SAVE_DIR (Sim.platform "/opt/tool")
      (Sim.flags "mlx-community/Llama-3.2-3B-Instruct" true true true)
  /\ Str.contains "/" (MODEL_SHORTNAME (Sim.flags "llama-3b" false false false)) = false.
Proof.
  destruct (paths_determined_by_name_dir_and_quantization
              (Sim.platform "/opt/tool") (Sim.platform "/opt/tool")
              (Sim.flags "llama-3b" false false false)
              (Sim.flags "mlx-community/Llama-3.2-3B-Instruct" true true true))
    as ((_ & Hsave & _) & _ & (Hshort & _) & _).
  - reflexivity.
  - reflexivity.
  - split; [exact Hsave | exact Hshort].
Defined.

(** * Further properties of the script *)

(** ** Traces of sequences and of child processes *)

Section TraceFacts.

Context {P : Platform}.

(** The trace of a sequence is the trace of its first part, followed by the
    trace of the continuation when the first part completes. *)
Lemma trace_bind {A B} (m : M P A) (k : A -> M P B) w :
  trace (bind m k w) =
    trace (m w) ++
    match result (m w) with
    | Done a => trace (k a (world (m w)))
    | Raised _ => []
    end.
Proof.
  unfold bind, trace, result, world.
  destruct (m w) as [[[a|e] w1] t1]; simpl.
  - destruct (k a w1) as [[r w2] t2]. reflexivity.
  - rewrite app_nil_r. reflexivity.
Qed.

Lemma subprocess_run_exit (argv : list string) w status w' :
  spawn P argv w = (Done status, w') ->
  subprocess_run P argv w =
    (if (status =? 0)%Z then Done tt else Raised CalledProcessError,
     w', [Spawn argv]).
Proof. intros H. unfold subprocess_run. rewrite H. reflexivity. Qed.

Lemma subprocess_run_trace (argv : list string) w :
  trace (subprocess_run P argv w) = [Spawn argv].
Proof. unfold subprocess_run. destruct (spawn P argv w). reflexivity. Qed.

End TraceFacts.

(** ** The metadata fetch and the module body *)

Lemma fetch_model_metadata_calls (P : Platform) (args : Args.t) (w : World P) :
  trace (fetch_model_metadata P args w) = [FromPretrained (MODEL_NAME args)].
Proof.
  unfold fetch_model_metadata. unfold_M.
  destruct (from_pretrained P (MODEL_NAME args) w) as [[config|e] w1]; simpl.
  - destruct (getattr (quantization_config config) (PyDict ∅)); reflexivity.
  - destruct (is_Exception e); reflexivity.
Qed.



(** X2. Once the download directory is made and the metadata fetched, the
    module body ends in one of three ways. A model type or a quantization
    type that is false in a condition (None, an empty string, zero, an empty
    container) raises [ValueError]. A quantization type that passes this
    test but is not a str raises [AttributeError] when the artifact name is
    built. Otherwise the body completes and binds [GGUF_PATH] to the save
    directory joined with [<shortname>-<QUANT>.gguf]. In all three cases no
    call beyond the hub call has been made. *)
Theorem module_level_outcomes :
  forall (P : Platform) (args : Args.t) (w0 w1 w2 : World P)
         (mt q : pyval) (t : list event),
    makedirs P (DOWNLOAD_DIR P) (putenv P "TOKENIZERS_PARALLELISM" "false" w0)
      = (Done tt, w1) ->
    fetch_model_metadata P args w1 = (Done (mt, q), w2, t) ->
    module_level P args w0 =
      (match q with
       | PyStr s =>
           if truthy mt && truthy q
           then Done {| MODEL_TYPE := mt; QUANTIZATION_TYPE := s;
                        GGUF_PATH :=
                          os_path_join (SAVE_DIR P args)
                            (MODEL_SHORTNAME args +:+ "-" +:+ str_upper P s +:+ ".gguf") |}
           else Raised ValueError
       | _ => if truthy mt && truthy q then Raised AttributeError
              else Raised ValueError
       end,
       w2,
       [PutEnv "TOKENIZERS_PARALLELISM" "false"; MakeDirs (DOWNLOAD_DIR P)] ++ t).
Proof.
  intros P args w0 w1 w2 mt q t Hmk Hfetch. unfold module_level.
  unfold bind at 1 2 3, os_environ_set, os_makedirs.
  rewrite Hmk, Hfetch. cbn [fst snd].
  destruct (truthy mt), (truthy q) eqn:Hq; simpl;
    destruct q; simpl; rewrite ?app_nil_r; try reflexivity; discriminate Hq.
Qed.

Lemma module_level_outcomes_witness :
  module_level Sim.tool (Sim.flags "llama-3b" false false false)
    {| Sim.files := ∅;
       Sim.hub := {[ "mlx-community/Llama-3.2-3B-Instruct" :=
                       Sim.llama_config (Some (PyDict {[ "quant_method" := PyInt 4 ]})) ]} |}
  = (Raised AttributeError,
     {| Sim.files := {["/opt/tool/models"]} ∪ ∅;
        Sim.hub := {[ "mlx-community/Llama-3.2-3B-Instruct" :=
                        Sim.llama_config (Some (PyDict {[ "quant_method" := PyInt 4 ]})) ]} |},
     [PutEnv "TOKENIZERS_PARALLELISM" "false"; MakeDirs (DOWNLOAD_DIR Sim.tool)]
       ++ [FromPretrained "mlx-community/Llama-3.2-3B-Instruct"]).
Proof.
  eapply (module_level_outcomes Sim.tool (Sim.flags "llama-3b" false false false)
            _ _ _ (PyStr "llama") (PyInt 4)).
  - reflexivity.
  - vm_compute. reflexivity.
Defined.

(** X3. When the download directory cannot be made, the script ends with
    the exception of [os.makedirs] before the hub is contacted: its trace is
    the environment setting and the attempt to make the directory. *)
Theorem script_stops_without_download_dir :
  forall (P : Platform) (args : Args.t) (w0 w1 : World P) (e : exn),
    makedirs P (DOWNLOAD_DIR P) (putenv P "TOKENIZERS_PARALLELISM" "false" w0)
      = (Raised e, w1) ->
    script P args w0 =
      (Raised e, w1,
       [PutEnv "TOKENIZERS_PARALLELISM" "false"; MakeDirs (DOWNLOAD_DIR P)]).
Proof.
  intros P args w0 w1 e Hmk. unfold script, module_level.
  unfold bind at 1 2 3, os_environ_set, os_makedirs.
  rewrite Hmk. reflexivity.
Qed.

Lemma script_stops_without_download_dir_witness :
  script (Faulty.read_only "/opt/tool") (Sim.flags "llama-3b" false false true)
    (Sim.disk ∅)
  = (Raised OSError, Sim.disk ∅,
     [PutEnv "TOKENIZERS_PARALLELISM" "false"; MakeDirs "/opt/tool/models"]).
Proof.
  apply (script_stops_without_download_dir (Faulty.read_only "/opt/tool")).
  reflexivity.
Defined.

(** ** The stages one by one *)

(** X4. The listing of the save directory is not guarded by any flag. When
    the download stage has completed and the save directory cannot be
    listed, [main] ends with the exception of [os.listdir] before the
    toolchain is synchronised; with [--skip-download] the listing is the
    only outside call of the run. *)
Theorem main_needs_listable_save_dir :
  forall (P : Platform) (args : Args.t) (g : Globals) (w0 w1 w2 : World P)
         (t1 : list event) (e : exn),
    download_model P args w0 = (Done tt, w1, t1) ->
    listdir P (SAVE_DIR P args) w1 = (Raised e, w2) ->
    main P args g w0 = (Raised e, w2, t1 ++ [ListDir (SAVE_DIR P args)])
    /\ (Args.skip_download args = true ->
        main P args g w0 = (Raised e, w2, [ListDir (SAVE_DIR P args)])).
Proof.
  intros P args g w0 w1 w2 t1 e Hd Hls.
  assert (Hcheck : check_model_files P args w1 =
                     (Raised e, w2, [ListDir (SAVE_DIR P args)])).
  { unfold check_model_files. unfold_M. rewrite Hls. reflexivity. }
  assert (Hmain : main P args g w0 =
                    (Raised e, w2, t1 ++ [ListDir (SAVE_DIR P args)])).
  { unfold main. apply (bind_done_then _ _ _ _ _ _ _ _ _ Hd).
    apply bind_raised. exact Hcheck. }
  split; [exact Hmain|].
  intros Hflag. rewrite Hmain.
  rewrite (download_model_skipped P args w0 Hflag) in Hd.
  injection Hd as <- <-. reflexivity.
Qed.

Lemma main_needs_listable_save_dir_witness :
  main Sim.tool (Sim.flags "llama-3b" true false true) Sim.llama_f16 (Sim.disk ∅)
  = (Raised FileNotFoundError, Sim.disk ∅,
     [ListDir "/opt/tool/models/Llama-3.2-3B-Instruct"]).
Proof.
  eapply (main_needs_listable_save_dir Sim.tool (Sim.flags "llama-3b" true false true)).
  - reflexivity.
  - vm_compute. reflexivity.
  - reflexivity.
Defined.

(** X5. The toolchain sync looks for the checkout first and then starts one
    git command: a clone when the checkout is absent, a pull when it is
    there. The checkout of [master] is started exactly when that command
    exits with status 0, and the stage then ends as the checkout does; any
    other status raises [CalledProcessError] with no checkout attempted. *)
Theorem update_llama_cpp_clone_or_pull :
  forall (P : Platform) (w w1 : World P) (status : Z),
    spawn P (sync_cmd P w) w = (Done status, w1) ->
    (status = 0%Z ->
     update_llama_cpp P w =
       (result (subprocess_run P (checkout_cmd P) w1),
        world (subprocess_run P (checkout_cmd P) w1),
        [PathExists (LLAMA_CPP_DIR P); Spawn (sync_cmd P w);
         Spawn (checkout_cmd P)]))
    /\ (status <> 0%Z ->
        update_llama_cpp P w =
          (Raised CalledProcessError, w1,
           [PathExists (LLAMA_CPP_DIR P); Spawn (sync_cmd P w)])).
Proof.
  intros P w w1 status Hsync. unfold update_llama_cpp.
  assert (Hrun : (if negb (path_exists P (LLAMA_CPP_DIR P) w)
                  then subprocess_run P (clone_cmd P)
                  else subprocess_run P (pull_cmd P)) w
                 = (if (status =? 0)%Z then Done tt else Raised CalledProcessError,
                    w1, [Spawn (sync_cmd P w)])).
  { unfold sync_cmd in *.
    destruct (path_exists P (LLAMA_CPP_DIR P) w); simpl in *;
      apply subprocess_run_exit; exact Hsync. }
  unfold bind at 1, os_path_exists.
  fold (clone_cmd P) (pull_cmd P) (checkout_cmd P).
  split.
  - intros ->. simpl in Hrun.
    unfold bind. rewrite Hrun.
    pose proof (subprocess_run_trace (checkout_cmd P) w1) as Htrace.
    destruct (subprocess_run P (checkout_cmd P) w1) as [[r w2] t2].
    simpl in Htrace. subst t2. reflexivity.
  - intros Hstatus. apply Z.eqb_neq in Hstatus. rewrite Hstatus in Hrun.
    unfold bind. rewrite Hrun. reflexivity.
Qed.

Lemma update_llama_cpp_clone_or_pull_witness :
  update_llama_cpp Sim.tool (Sim.disk ∅)
  = (Done tt, Sim.disk ∅,
     [PathExists "/opt/tool/llama.cpp";
      Spawn ["git"; "clone"; "https://github.com/ggerganov/llama.cpp";
             "/opt/tool/llama.cpp"];
      Spawn ["git"; "-C"; "/opt/tool/llama.cpp"; "checkout"; "master"]])
  /\ update_llama_cpp Faulty.tool (Sim.disk {["/opt/tool/llama.cpp"]})
     = (Raised CalledProcessError, Sim.disk {["/opt/tool/llama.cpp"]},
        [PathExists "/opt/tool/llama.cpp";
         Spawn ["git"; "-C"; "/opt/tool/llama.cpp"; "pull"]]).
Proof.
  split.
  - destruct (update_llama_cpp_clone_or_pull Sim.tool (Sim.disk ∅) (Sim.disk ∅) 0%Z)
      as [Hok _]; [reflexivity|].
    apply Hok. reflexivity.
  - destruct (update_llama_cpp_clone_or_pull Faulty.tool
                (Sim.disk {["/opt/tool/llama.cpp"]})
                (Sim.disk {["/opt/tool/llama.cpp"]}) 1%Z)
      as [_ Hfail]; [vm_compute; reflexivity|].
    apply Hfail. discriminate.
Defined.

(** X6. The run stage starts the inference binary exactly when
    [--run-model] is set and the GGUF artifact exists; it then passes the
    fixed argument list and ends as the child does: normally on exit status
    0, with [CalledProcessError] otherwise. *)
Theorem run_model_starts_binary_iff :
  forall (P : Platform) (args : Args.t) (g : Globals) (w : World P),
    (In (Spawn (run_cmd P args g)) (trace (run_model P args g w)) <->
     Args.run_model args = true /\ path_exists P (GGUF_PATH g) w = true)
    /\ (Args.run_model args = true ->
        path_exists P (GGUF_PATH g) w = true ->
        forall status w',
          spawn P (run_cmd P args g) w = (Done status, w') ->
          run_model P args g w =
            (if (status =? 0)%Z then Done tt else Raised CalledProcessError,
             w', [PathExists (GGUF_PATH g); Spawn (run_cmd P args g)])).
Proof.
  intros P args g w. split.
  - destruct (Args.run_model args) eqn:Hflag.
    + destruct (path_exists P (GGUF_PATH g) w) eqn:Hgguf.
      * unfold run_model. rewrite Hflag. simpl.
        rewrite trace_bind. unfold os_path_exists at 1 2. simpl.
        rewrite Hgguf, subprocess_run_trace. simpl. tauto.
      * rewrite run_model_no_artifact by assumption. simpl. split.
        -- intros [H|[]]. discriminate H.
        -- intros [_ H]. discriminate H.
    + rewrite run_model_not_requested by assumption. simpl. split.
      * intros [].
      * intros [H _]. discriminate H.
  - intros Hflag Hgguf status w' Hspawn.
    unfold run_model. rewrite Hflag. simpl.
    apply (bind_done_then (os_path_exists P (GGUF_PATH g)) _ w true w
             [PathExists (GGUF_PATH g)]).
    + unfold os_path_exists. rewrite Hgguf. reflexivity.
    + apply subprocess_run_exit. exact Hspawn.
Qed.

Lemma run_model_starts_binary_iff_witness :
  run_model Faulty.tool (Sim.flags "llama-3b" false false true) Sim.llama_f16
    (Sim.disk {[GGUF_PATH Sim.llama_f16]})
  = (Raised CalledProcessError, Sim.disk {[GGUF_PATH Sim.llama_f16]},
     [PathExists (GGUF_PATH Sim.llama_f16);
      Spawn (run_cmd Faulty.tool (Sim.flags "llama-3b" false false true)
               Sim.llama_f16)]).
Proof.
  destruct (run_model_starts_binary_iff Faulty.tool
              (Sim.flags "llama-3b" false false true) Sim.llama_f16
              (Sim.disk {[GGUF_PATH Sim.llama_f16]})) as [_ Hrun].
  apply (Hrun eq_refl) with (status := 1%Z).
  - vm_compute. reflexivity.
  - reflexivity.
Defined.

(** X7. A converter that exits with a non-zero status ends [main] with
    [CalledProcessError]: the run stage is not entered, with or without
    [--run-model], and the artifact is not looked for again. *)
Theorem failed_conversion_stops_main :
  forall (P : Platform) (args : Args.t) (g : Globals)
         (w0 w1 w2 w3 w4 : World P) (t1 t2 t3 : list event) (status : Z),
    download_model P args w0 = (Done tt, w1, t1) ->
    check_model_files P args w1 = (Done tt, w2, t2) ->
    update_llama_cpp P w2 = (Done tt, w3, t3) ->
    path_exists P (convert_script P) w3 = true ->
    Args.skip_conversion args = false ->
    path_exists P (GGUF_PATH g) w3 = false ->
    spawn P (convert_cmd P args g) w3 = (Done status, w4) ->
    status <> 0%Z ->
    main P args g w0 =
      (Raised CalledProcessError, w4,
       t1 ++ t2 ++ t3 ++
       [PathExists (convert_script P); PathExists (GGUF_PATH g);
        Spawn (convert_cmd P args g)]).
Proof.
  intros P args g w0 w1 w2 w3 w4 t1 t2 t3 status
         Hd Hc Hu Hscript Hflag Hgguf Hspawn Hstatus.
  unfold main.
  apply (bind_done_then _ _ _ _ _ _ _ _ _ Hd).
  apply (bind_done_then _ _ _ _ _ _ _ _ _ Hc).
  apply (bind_done_then _ _ _ _ _ _ _ _ _ Hu).
  apply bind_raised.
  rewrite convert_model_absent by assumption.
  rewrite (subprocess_run_exit _ _ _ _ Hspawn).
  apply Z.eqb_neq in Hstatus. rewrite Hstatus. reflexivity.
Qed.

Lemma failed_conversion_stops_main_witness :
  main (Faulty.platform "/opt/tool" (Faulty.exit_of "python3"))
    (Sim.flags "llama-3b" true false true) Sim.llama_f16
    (Sim.disk ({["/opt/tool/models/Llama-3.2-3B-Instruct"]}
                 ∪ {["/opt/tool/llama.cpp/convert_hf_to_gguf.py"]}))
  = (Raised CalledProcessError,
     Sim.disk ({["/opt/tool/models/Llama-3.2-3B-Instruct"]}
                 ∪ {["/opt/tool/llama.cpp/convert_hf_to_gguf.py"]}),
     [] ++ [ListDir "/opt/tool/models/Llama-3.2-3B-Instruct"]
        ++ [PathExists "/opt/tool/llama.cpp";
            Spawn ["git"; "clone"; "https://github.com/ggerganov/llama.cpp";
                   "/opt/tool/llama.cpp"];
            Spawn ["git"; "-C"; "/opt/tool/llama.cpp"; "checkout"; "master"]]
        ++ [PathExists "/opt/tool/llama.cpp/convert_hf_to_gguf.py";
            PathExists (GGUF_PATH Sim.llama_f16);
            Spawn ["python3"; "/opt/tool/llama.cpp/convert_hf_to_gguf.py";
                   "/opt/tool/models/Llama-3.2-3B-Instruct"; "--outtype"; "f16"]]).
Proof.
  eapply (failed_conversion_stops_main
            (Faulty.platform "/opt/tool" (Faulty.exit_of "python3")))
    with (status := 1%Z);
    try (vm_compute; reflexivity).
  discriminate.
Defined.

(** X8. The save directory is made before the download is started. So when
    the download tool exits with a non-zero status the stage raises
    [CalledProcessError] with the directory already made, and a later run
    that finds the directory skips the download: the failed download is not
    tried again. *)
Theorem failed_download_not_retried :
  forall (P : Platform) (args : Args.t) (w w1 w2 : World P) (status : Z),
    Args.skip_download args = false ->
    path_exists P (SAVE_DIR P args) w = false ->
    makedirs P (SAVE_DIR P args) w = (Done tt, w1) ->
    spawn P (download_cmd P args) w1 = (Done status, w2) ->
    status <> 0%Z ->
    download_model P args w =
      (Raised CalledProcessError, w2,
       [PathExists (SAVE_DIR P args); MakeDirs (SAVE_DIR P args);
        Spawn (download_cmd P args)])
    /\ (path_exists P (SAVE_DIR P args) w2 = true ->
        download_model P args w2 =
          (Done tt, w2, [PathExists (SAVE_DIR P args)])).
Proof.
  intros P args w w1 w2 status Hflag Hdir Hmk Hspawn Hstatus. split.
  - rewrite download_model_absent by assumption.
    unfold bind, os_makedirs. rewrite Hmk.
    rewrite (subprocess_run_exit _ _ _ _ Hspawn).
    apply Z.eqb_neq in Hstatus. rewrite Hstatus. reflexivity.
  - intros Hthere. apply download_model_present; assumption.
Qed.

Lemma failed_download_not_retried_witness :
  download_model Faulty.tool (Sim.flags "llama-3b" false false false) (Sim.disk ∅)
  = (Raised CalledProcessError,
     {| Sim.files := {["/opt/tool/models/Llama-3.2-3B-Instruct"]} ∪ ∅; Sim.hub := ∅ |},
     [PathExists "/opt/tool/models/Llama-3.2-3B-Instruct";
      MakeDirs "/opt/tool/models/Llama-3.2-3B-Instruct";
      Spawn (download_cmd Faulty.tool (Sim.flags "llama-3b" false false false))])
  /\ download_model Faulty.tool (Sim.flags "llama-3b" false false false)
       {| Sim.files := {["/opt/tool/models/Llama-3.2-3B-Instruct"]} ∪ ∅; Sim.hub := ∅ |}
     = (Done tt,
        {| Sim.files := {["/opt/tool/models/Llama-3.2-3B-Instruct"]} ∪ ∅; Sim.hub := ∅ |},
        [PathExists "/opt/tool/models/Llama-3.2-3B-Instruct"]).
Proof.
  destruct (failed_download_not_retried Faulty.tool
              (Sim.flags "llama-3b" false false false) (Sim.disk ∅)
              {| Sim.files := {["/opt/tool/models/Llama-3.2-3B-Instruct"]} ∪ ∅;
                 Sim.hub := ∅ |}
              {| Sim.files := {["/opt/tool/models/Llama-3.2-3B-Instruct"]} ∪ ∅;
                 Sim.hub := ∅ |}
              1%Z) as [Hfail Hagain];
    try (vm_compute; reflexivity); [discriminate|].
  split; [exact Hfail|]. apply Hagain. vm_compute. reflexivity.
Defined.

(** ** The calls of [main] *)

Section StageCalls.

Variables (P : Platform) (args : Args.t) (g : Globals) (w : World P).

Lemma download_model_calls :
  trace (download_model P args w) `sublist_of`
    [PathExists (SAVE_DIR P args); MakeDirs (SAVE_DIR P args);
     Spawn (download_cmd P args)].
Proof.
  destruct (Args.skip_download args) eqn:Hflag.
  { rewrite download_model_skipped by assumption. solve_sublist. }
  destruct (path_exists P (SAVE_DIR P args) w) eqn:Hdir.
  { rewrite download_model_present by assumption. simpl. solve_sublist. }
  rewrite download_model_absent by assumption.
  unfold trace at 1. cbn [snd]. rewrite trace_bind.
  unfold os_makedirs at 1 2.
  destruct (makedirs P (SAVE_DIR P args) w) as [[[]|e] w1]; simpl.
  - rewrite subprocess_run_trace. solve_sublist.
  - solve_sublist.
Qed.

Lemma check_model_files_calls :
  trace (check_model_files P args w) `sublist_of` [ListDir (SAVE_DIR P args)].
Proof.
  unfold check_model_files. rewrite trace_bind. unfold os_listdir at 1 2.
  destruct (listdir P (SAVE_DIR P args) w) as [[files|e] w1]; simpl; solve_sublist.
Qed.

Lemma update_llama_cpp_calls :
  trace (update_llama_cpp P w) `sublist_of`
    [PathExists (LLAMA_CPP_DIR P); Spawn (sync_cmd P w); Spawn (checkout_cmd P)].
Proof.
  unfold update_llama_cpp. rewrite trace_bind.
  unfold os_path_exists at 1 2. unfold trace at 1, result, world. cbn [fst snd].
  apply (sublist_skip (PathExists (LLAMA_CPP_DIR P))).
  rewrite trace_bind.
  fold (clone_cmd P) (pull_cmd P) (checkout_cmd P). unfold sync_cmd.
  apply (sublist_app _ [Spawn _] _ [Spawn _]).
  - destruct (path_exists P (LLAMA_CPP_DIR P) w); simpl;
      rewrite subprocess_run_trace; reflexivity.
  - destruct (result _); [rewrite subprocess_run_trace|]; solve_sublist.
Qed.

Lemma convert_model_calls :
  trace (convert_model P args g w) `sublist_of`
    [PathExists (convert_script P); PathExists (GGUF_PATH g);
     Spawn (convert_cmd P args g)].
Proof.
  destruct (path_exists P (convert_script P) w) eqn:Hscript.
  - destruct (Args.skip_conversion args) eqn:Hflag.
    { rewrite convert_model_skipped by assumption. simpl. solve_sublist. }
    destruct (path_exists P (GGUF_PATH g) w) eqn:Hgguf.
    + rewrite convert_model_present by assumption. simpl. solve_sublist.
    + rewrite convert_model_absent by assumption. simpl. solve_sublist.
  - rewrite convert_model_no_script by assumption. simpl. solve_sublist.
Qed.

Lemma run_model_calls :
  trace (run_model P args g w) `sublist_of`
    [PathExists (GGUF_PATH g); Spawn (run_cmd P args g)].
Proof.
  destruct (Args.run_model args) eqn:Hflag.
  - destruct (path_exists P (GGUF_PATH g) w) eqn:Hgguf.
    + unfold run_model. rewrite Hflag. simpl. rewrite trace_bind.
      unfold os_path_exists at 1 2. simpl. rewrite Hgguf, subprocess_run_trace.
      solve_sublist.
    + rewrite run_model_no_artifact by assumption. simpl. solve_sublist.
  - rewrite run_model_not_requested by assumption. solve_sublist.
Qed.

End StageCalls.

Lemma main_trace_sublist :
  forall (P : Platform) (args : Args.t) (g : Globals) (w : World P),
    exists sync,
      (sync = clone_cmd P \/ sync = pull_cmd P) /\
      trace (main P args g w) `sublist_of` main_calls P args g sync.
Proof.
  intros P args g w. unfold main, main_calls.
  rewrite trace_bind.
  pose proof (download_model_calls P args w) as Hd.
  destruct (result (download_model P args w)) as [[]|e].
  2:{ exists (clone_cmd P). split; [auto|].
      apply sublist_app; [exact Hd | solve_sublist]. }
  set (w1 := world (download_model P args w)).
  rewrite trace_bind.
  pose proof (check_model_files_calls P args w1) as Hc.
  destruct (result (check_model_files P args w1)) as [[]|e].
  2:{ exists (clone_cmd P). split; [auto|].
      apply sublist_app; [exact Hd|].
      apply sublist_app; [exact Hc | solve_sublist]. }
  set (w2 := world (check_model_files P args w1)).
  exists (sync_cmd P w2). split.
  { unfold sync_cmd. destruct (path_exists P (LLAMA_CPP_DIR P) w2); auto. }
  rewrite trace_bind.
  pose proof (update_llama_cpp_calls P w2) as Hu.
  apply sublist_app; [exact Hd|].
  apply sublist_app; [exact Hc|].
  apply sublist_app; [exact Hu|].
  destruct (result (update_llama_cpp P w2)) as [[]|e]; [|solve_sublist].
  set (w3 := world (update_llama_cpp P w2)).
  rewrite trace_bind.
  apply sublist_app; [apply convert_model_calls|].
  destruct (result (convert_model P args g w3)) as [[]|e]; [|solve_sublist].
  apply run_model_calls.
Qed.

(** X9. Whatever the platform does, the outside calls of [main] are a
    subsequence of the calls written in it, in program order: the check and
    creation of the save directory and the download, the listing, the look
    for the checkout with one clone or pull and the checkout of [master],
    the look for the converter script and the artifact with the conversion,
    and the look for the artifact with the run. [main] starts at most five
    children, never contacts the hub and makes no directory but the save
    directory. *)
Theorem main_calls_in_program_order :
  forall (P : Platform) (args : Args.t) (g : Globals) (w : World P),
    exists sync,
      (sync = clone_cmd P \/ sync = pull_cmd P) /\
      trace (main P args g w) `sublist_of` main_calls P args g sync.
Proof. exact main_trace_sublist. Qed.

Lemma module_level_calls (P : Platform) (args : Args.t) (w : World P) :
  trace (module_level P args w) `sublist_of`
    [PutEnv "TOKENIZERS_PARALLELISM" "false"; MakeDirs (DOWNLOAD_DIR P);
     FromPretrained (MODEL_NAME args)].
Proof.
  unfold module_level. unfold bind at 1 2 3, os_environ_set, os_makedirs.
  destruct (makedirs P (DOWNLOAD_DIR P) _) as [[[]|e] w1]; [|simpl; solve_sublist].
  pose proof (fetch_model_metadata_calls P args w1) as Hfetch.
  destruct (fetch_model_metadata P args w1) as [[[[mt q]|e] w2] t2];
    simpl in Hfetch; subst t2; [|simpl; solve_sublist].
  cbn [fst snd].
  destruct (negb (truthy mt) || negb (truthy q)); [simpl; solve_sublist|].
  destruct q; simpl; solve_sublist.
Qed.

(** X15. The outside calls of the whole script are a subsequence of: the
    environment setting, the creation of the download directory, one call
    of the hub for the resolved model name, and then the calls of [main] in
    program order. The hub is contacted at most once, before any check of
    the save directory and before any child is started. *)
Theorem script_calls_in_program_order :
  forall (P : Platform) (args : Args.t) (w : World P),
    exists g sync,
      (sync = clone_cmd P \/ sync = pull_cmd P) /\
      trace (script P args w) `sublist_of`
        [PutEnv "TOKENIZERS_PARALLELISM" "false"; MakeDirs (DOWNLOAD_DIR P);
         FromPretrained (MODEL_NAME args)]
        ++ main_calls P args g sync.
Proof.
  intros P args w. unfold script. rewrite trace_bind.
  pose proof (module_level_calls P args w) as Hmodule.
  destruct (result (module_level P args w)) as [g|e].
  - destruct (main_trace_sublist P args g (world (module_level P args w)))
      as (sync & Hsync & Hmain).
    exists g, sync. split; [exact Hsync|].
    apply sublist_app; assumption.
  - exists {| MODEL_TYPE := PyNone; QUANTIZATION_TYPE := ""; GGUF_PATH := "" |},
           (clone_cmd P).
    split; [auto|]. apply sublist_app; [exact Hmodule | solve_sublist].
Qed.

(** ** The tables *)

(** X10. The layer count is "30" exactly when no key of the table occurs in
    the model name: no entry of the table has the default as its value. In
    every case the count is the default or a value of the table. *)
Theorem n_gpu_layers_default_iff_no_key :
  forall name : string,
    (n_gpu_layers name = "30" <->
     Forall (fun entry => Str.contains (fst entry) name = false)
            n_gpu_layers_mapping)
    /\ In (n_gpu_layers name) ("30" :: map snd n_gpu_layers_mapping).
Proof.
  intros name. unfold n_gpu_layers, model_size, n_gpu_layers_mapping.
  rewrite !Forall_cons, Forall_nil. cbn [map fst snd List.find].
  destruct (Str.contains "72B" name);
    [split; [split; [discriminate | intros [H _]; discriminate H]
            | vm_compute; tauto]|].
  destruct (Str.contains "32B" name);
    [split; [split; [discriminate | intros (_ & H & _); discriminate H]
            | vm_compute; tauto]|].
  destruct (Str.contains "14B" name);
    [split; [split; [discriminate | intros (_ & _ & H & _); discriminate H]
            | vm_compute; tauto]|].
  destruct (Str.contains "12B" name);
    [split; [split; [discriminate | intros (_ & _ & _ & H & _); discriminate H]
            | vm_compute; tauto]|].
  destruct (Str.contains "7B" name);
    [split; [split; [discriminate | intros (_ & _ & _ & _ & H & _); discriminate H]
            | vm_compute; tauto]|].
  destruct (Str.contains "3B" name);
    [split; [split; [discriminate | intros (_ & _ & _ & _ & _ & H & _); discriminate H]
            | vm_compute; tauto]|].
  destruct (Str.contains "1B" name);
    [split; [split; [discriminate | intros (_ & _ & _ & _ & _ & _ & H & _); discriminate H]
            | vm_compute; tauto]|].
  split; [tauto | left; reflexivity].
Qed.

Lemma MODEL_NAME_cases (args : Args.t) :
  (Args.model args = "mlx-deepseek-32b" /\
   MODEL_NAME args = "mlx-community/DeepSeek-R1-Distill-Qwen-32B")
  \/ (Args.model args = "llama-3b" /\
      MODEL_NAME args = "mlx-community/Llama-3.2-3B-Instruct")
  \/ (Args.model args <> "mlx-deepseek-32b" /\ Args.model args <> "llama-3b" /\
      MODEL_NAME args = Args.model args).
Proof.
  unfold MODEL_NAME, MODELS_ALIASES.
  destruct (decide (Args.model args = "mlx-deepseek-32b")) as [->|H1]; [left; auto|].
  destruct (decide (Args.model args = "llama-3b")) as [->|H2]; [right; left; auto|].
  right. right. rewrite lookup_insert_ne, lookup_insert_ne, lookup_empty by congruence.
  auto.
Qed.

(** X11. Alias resolution is idempotent: no alias resolves to another
    alias, so a run given the resolved name of an earlier run works on the
    same model name, whether that earlier run was given an alias or a full
    name. *)
Theorem alias_resolution_idempotent :
  forall args args' : Args.t,
    Args.model args' = MODEL_NAME args ->
    MODEL_NAME args' = MODEL_NAME args.
Proof.
  intros args args' Hmodel.
  destruct (MODEL_NAME_cases args) as [[_ Hfull]|[[_ Hfull]|(Hn1 & Hn2 & Hsame)]].
  - rewrite Hfull in *.
    destruct (MODEL_NAME_cases args') as [[H _]|[[H _]|(_ & _ & H)]];
      congruence.
  - rewrite Hfull in *.
    destruct (MODEL_NAME_cases args') as [[H _]|[[H _]|(_ & _ & H)]];
      congruence.
  - rewrite Hsame in *.
    destruct (MODEL_NAME_cases args') as [[H _]|[[H _]|(_ & _ & H)]];
      congruence.
Qed.

Lemma alias_resolution_idempotent_witness :
  MODEL_NAME (Sim.flags "mlx-community/Llama-3.2-3B-Instruct" true true false)
  = MODEL_NAME (Sim.flags "llama-3b" false false false).
Proof.
  apply (alias_resolution_idempotent (Sim.flags "llama-3b" false false false)).
  reflexivity.
Defined.

(** X12. The flag [--verbose] has no effect: two runs whose arguments
    differ in it alone make the same calls, end in the same world and have
    the same outcome. *)
Theorem verbose_is_ignored :
  forall (P : Platform) (args args' : Args.t) (w : World P),
    Args.model args = Args.model args' ->
    Args.skip_download args = Args.skip_download args' ->
    Args.skip_conversion args = Args.skip_conversion args' ->
    Args.run_model args = Args.run_model args' ->
    script P args w = script P args' w.
Proof.
  intros P [m sd sc rm vb] [m' sd' sc' rm' vb'] w. simpl.
  intros <- <- <- <-. reflexivity.
Qed.

Lemma verbose_is_ignored_witness :
  script Sim.tool
    {| Args.model := "llama-3b"; Args.skip_download := false;
       Args.skip_conversion := false; Args.run_model := true;
       Args.verbose := true |} (Sim.disk ∅)
  = script Sim.tool (Sim.flags "llama-3b" false false true) (Sim.disk ∅).
Proof.
  apply verbose_is_ignored; reflexivity.
Defined.

(** ** The layout of the constructed paths *)

Section LayoutFacts.

#[local] Arguments String.append !_ _ / : simpl nomatch.

Lemma last_char_app (a b : string) :
  b <> "" -> last_char (a +:+ b) = last_char b.
Proof.
  intros Hb. induction a as [|c a IH]; [reflexivity|].
  simpl. rewrite IH.
  destruct (a +:+ b) eqn:E; [|reflexivity].
  destruct a; simpl in E; [congruence | discriminate].
Qed.

Lemma endswith_last_char (c : ascii) (s : string) :
  Str.endswith (String c "") s = true <-> last_char s = Some c.
Proof.
  rewrite endswith_app. split.
  - intros [before ->]. rewrite last_char_app by discriminate. reflexivity.
  - induction s as [|d s IH]; [discriminate|].
    destruct s as [|d' s].
    + simpl. intros H. injection H as ->. exists "". reflexivity.
    + intros H. destruct (IH H) as [before Hs].
      exists (String d before). simpl. rewrite <- Hs. reflexivity.
Qed.

Lemma contains_last_char (c : ascii) (s : string) :
  Str.contains (String c "") s = false -> last_char s <> Some c.
Proof.
  intros Hno Hlast. apply endswith_last_char, endswith_app in Hlast.
  destruct Hlast as [before ->].
  assert (Str.contains (String c "") (before +:+ String c "") = true) as Hyes.
  { apply contains_app. exists before, "". reflexivity. }
  congruence.
Qed.

Lemma contains_startswith (sub s : string) :
  Str.contains sub s = false -> Str.startswith sub s = false.
Proof.
  unfold Str.startswith. destruct s; cbn [Str.contains];
    intros H; apply orb_false_iff in H; tauto.
Qed.

Lemma endswith_false (c : ascii) (s : string) :
  last_char s <> Some c -> Str.endswith (String c "") s = false.
Proof.
  intros H. destruct (Str.endswith (String c "") s) eqn:E; [|reflexivity].
  apply endswith_last_char in E. contradiction.
Qed.

Lemma nonempty_app_r (a b : string) : b <> "" -> a +:+ b <> "".
Proof. destruct a; simpl; [auto | discriminate]. Qed.

Lemma eqb_empty_false (s : string) : s <> "" -> String.eqb s "" = false.
Proof. intros H. apply String.eqb_neq. exact H. Qed.

End LayoutFacts.

Section Layout.

Variables (P : Platform) (args : Args.t).

Lemma MODEL_SHORTNAME_no_separator :
  Str.contains "/" (MODEL_SHORTNAME args) = false.
Proof. apply (last_split "/" (MODEL_NAME args)). Qed.

Lemma DOWNLOAD_DIR_layout :
  DOWNLOAD_DIR P =
    SCRIPT_DIR P
    +:+ (if String.eqb (SCRIPT_DIR P) "" || Str.endswith "/" (SCRIPT_DIR P)
         then "" else "/")
    +:+ "models".
Proof. unfold DOWNLOAD_DIR. apply os_path_join_relative. reflexivity. Qed.

Lemma SAVE_DIR_layout :
  SAVE_DIR P args = DOWNLOAD_DIR P +:+ "/" +:+ MODEL_SHORTNAME args.
Proof.
  unfold SAVE_DIR.
  rewrite os_path_join_relative
    by (apply contains_startswith, MODEL_SHORTNAME_no_separator).
  assert (Hlast : last_char (DOWNLOAD_DIR P) = Some "s"%char).
  { rewrite DOWNLOAD_DIR_layout, !last_char_app by (try apply nonempty_app_r; discriminate).
    reflexivity. }
  rewrite eqb_empty_false, endswith_false; [reflexivity | | ].
  - rewrite Hlast. discriminate.
  - intros E. rewrite E in Hlast. discriminate Hlast.
Qed.

End Layout.

Section ArtifactLayout.

#[local] Arguments String.append !_ _ / : simpl nomatch.

Variables (P : Platform) (args : Args.t).

Lemma SAVE_DIR_separator :
  String.eqb (SAVE_DIR P args) "" || Str.endswith "/" (SAVE_DIR P args)
  = String.eqb (MODEL_SHORTNAME args) "".
Proof.
  rewrite SAVE_DIR_layout.
  rewrite eqb_empty_false by (apply nonempty_app_r; discriminate).
  cbn [orb]. destruct (String.eqb_spec (MODEL_SHORTNAME args) "") as [->|Hne].
  - apply endswith_app. exists (DOWNLOAD_DIR P). reflexivity.
  - apply endswith_false.
    rewrite (last_char_app (DOWNLOAD_DIR P)) by discriminate.
    rewrite (last_char_app "/") by assumption.
    apply contains_last_char, MODEL_SHORTNAME_no_separator.
Qed.

Lemma GGUF_PATH_layout (QUANT : string) :
  os_path_join (SAVE_DIR P args)
    (MODEL_SHORTNAME args +:+ "-" +:+ QUANT +:+ ".gguf")
  = SAVE_DIR P args
    +:+ (if String.eqb (MODEL_SHORTNAME args) "" then "" else "/")
    +:+ MODEL_SHORTNAME args +:+ "-" +:+ QUANT +:+ ".gguf".
Proof.
  rewrite os_path_join_relative
    by (apply segment_relative, MODEL_SHORTNAME_no_separator).
  rewrite SAVE_DIR_separator. reflexivity.
Qed.

End ArtifactLayout.

(** X13. The layout of the constructed paths, for every script directory
    and every model name. [models] and [llama.cpp] are appended to the
    script directory, with a ["/"] between unless the script directory is
    empty or ends with one. The save directory is the download directory,
    a ["/"] and the model shortname. The artifact path of a completed
    module body is the save directory, a ["/"] unless the shortname is
    empty, and the file name [<shortname>-<QUANT>.gguf]. No part of the
    model name before its last ["/"] enters any path. *)
Theorem constructed_paths_layout :
  forall (P : Platform) (args : Args.t),
    DOWNLOAD_DIR P =
      SCRIPT_DIR P
      +:+ (if String.eqb (SCRIPT_DIR P) "" || Str.endswith "/" (SCRIPT_DIR P)
           then "" else "/")
      +:+ "models"
    /\ LLAMA_CPP_DIR P =
         SCRIPT_DIR P
         +:+ (if String.eqb (SCRIPT_DIR P) "" || Str.endswith "/" (SCRIPT_DIR P)
              then "" else "/")
         +:+ "llama.cpp"
    /\ SAVE_DIR P args = DOWNLOAD_DIR P +:+ "/" +:+ MODEL_SHORTNAME args
    /\ (forall (w w' : World P) (g : Globals) (t : list event),
          module_level P args w = (Done g, w', t) ->
          GGUF_PATH g =
            SAVE_DIR P args
            +:+ (if String.eqb (MODEL_SHORTNAME args) "" then "" else "/")
            +:+ MODEL_SHORTNAME args +:+ "-"
            +:+ str_upper P (QUANTIZATION_TYPE g) +:+ ".gguf").
Proof.
  intros P args. split; [apply DOWNLOAD_DIR_layout|]. split; [|split].
  - unfold LLAMA_CPP_DIR. apply os_path_join_relative. reflexivity.
  - apply SAVE_DIR_layout.
  - intros w w' g t Hdone.
    destruct (module_level_done P args w g w' t Hdone)
      as (_ & _ & _ & _ & _ & _ & _ & Hpath).
    rewrite Hpath. apply GGUF_PATH_layout.
Qed.

Lemma constructed_paths_layout_witness :
  GGUF_PATH Sim.llama_f16
  = SAVE_DIR Sim.tool (Sim.flags "llama-3b" false false false)
    +:+ "/" +:+ "Llama-3.2-3B-Instruct" +:+ "-" +:+ str_upper Sim.tool "f16"
    +:+ ".gguf".
Proof.
  destruct (constructed_paths_layout Sim.tool (Sim.flags "llama-3b" false false false))
    as (_ & _ & _ & Hgguf).
  apply (Hgguf
           {| Sim.files := ∅;
              Sim.hub := {[ "mlx-community/Llama-3.2-3B-Instruct" :=
                              Sim.llama_config None ]} |}
           {| Sim.files := {["/opt/tool/models"]} ∪ ∅;
              Sim.hub := {[ "mlx-community/Llama-3.2-3B-Instruct" :=
                              Sim.llama_config None ]} |}
           Sim.llama_f16
           [PutEnv "TOKENIZERS_PARALLELISM" "false"; MakeDirs "/opt/tool/models";
            FromPretrained "mlx-community/Llama-3.2-3B-Instruct"]).
  vm_compute. reflexivity.
Defined.

(** X14. The model shortname is empty exactly when the model name is empty
    or ends with ["/"]. The save directory is then the download directory
    with a trailing ["/"]: the weights of such a model are put into
    [models] itself. *)
Theorem empty_shortname_iff_trailing_separator :
  forall (P : Platform) (args : Args.t),
    (MODEL_SHORTNAME args = "" <->
     MODEL_NAME args = "" \/ Str.endswith "/" (MODEL_NAME args) = true)
    /\ (MODEL_SHORTNAME args = "" -> SAVE_DIR P args = DOWNLOAD_DIR P +:+ "/").
Proof.
  intros P args. split.
  - destruct (last_split "/" (MODEL_NAME args)) as [Hnosep (before & Hname & Hbefore)].
    fold (MODEL_SHORTNAME args) in Hnosep, Hname. split.
    + intros Hshort. rewrite Hshort, append_empty_r in Hname.
      destruct Hbefore as [->|[b ->]]; [left; exact Hname|].
      right. apply endswith_app. eauto.
    + intros [Hempty|Hends].
      * rewrite Hempty in Hname. destruct before; [|discriminate Hname].
        symmetry. exact Hname.
      * destruct (MODEL_SHORTNAME args) as [|c short] eqn:Hshort; [reflexivity|].
        exfalso. apply endswith_last_char in Hends.
        rewrite Hname, last_char_app in Hends by discriminate.
        exact (contains_last_char _ _ Hnosep Hends).
  - intros Hshort. rewrite SAVE_DIR_layout, Hshort. reflexivity.
Qed.

Lemma empty_shortname_iff_trailing_separator_witness :
  MODEL_SHORTNAME (Sim.flags "mlx-community/" false false false) = ""
  /\ SAVE_DIR Sim.tool (Sim.flags "mlx-community/" false false false)
     = "/opt/tool/models/".
Proof.
  destruct (empty_shortname_iff_trailing_separator Sim.tool
              (Sim.flags "mlx-community/" false false false)) as [[_ Hempty] Hsave].
  assert (Hshort : MODEL_SHORTNAME (Sim.flags "mlx-community/" false false false) = "").
  { apply Hempty. right. reflexivity. }
  split; [exact Hshort|]. rewrite (Hsave Hshort). reflexivity.
Defined.

Lemma n_gpu_layers_default_iff_no_key_witness :
  n_gpu_layers "org/tiny-llama" = "30".
Proof.
  apply (n_gpu_layers_default_iff_no_key "org/tiny-llama").
  repeat constructor.
Defined.
